(** * Work-orders dashboard: a shallow embedding of the data-cleaning and
    aggregation code of [pages/banks_peridics_page.py] and
    [pages/tickets_page.py].

    Cells are modelled by the Python values pandas hands to the code:
    [None], a float NaN, a [str], or any other scalar (a non-NaN number, a
    datetime, a bool, ...) represented by its [str()] text.  Strings are
    byte strings; [str.strip] removes the ASCII characters Python's
    [str.isspace] accepts, and [str.lower] lowers ASCII letters. *)

From Stdlib Require Import Bool Arith ZArith List Lia String Ascii QArith Lqa DecimalString Floats.
From Stdlib Require Uint63.
Import ListNotations.
Open Scope string_scope.
Open Scope nat_scope.

(* ------------------------------------------------------------------ *)
(** ** Python string helpers *)

Module Py.

(** Characters removed by [str.strip()] (the ASCII ones among [str.isspace]). *)
Definition is_space (c : ascii) : bool :=
  let n := nat_of_ascii c in
  ((9 <=? n) && (n <=? 13)) || ((28 <=? n) && (n <=? 32)).

Fixpoint lstrip_list (l : list ascii) : list ascii :=
  match l with
  | [] => []
  | c :: t => if is_space c then lstrip_list t else l
  end.

(** [s.strip()] *)
Definition strip (s : string) : string :=
  string_of_list_ascii
    (rev (lstrip_list (rev (lstrip_list (list_ascii_of_string s))))).

Definition lower_char (c : ascii) : ascii :=
  let n := nat_of_ascii c in
  if (65 <=? n) && (n <=? 90) then ascii_of_nat (n + 32) else c.

(** [s.lower()] *)
Fixpoint lower (s : string) : string :=
  match s with
  | EmptyString => EmptyString
  | String c t => String (lower_char c) (lower t)
  end.

(** [k in s] for strings: [k] occurs in [s] as a substring. *)
Fixpoint contains (k s : string) : bool :=
  prefix k s ||
  match s with
  | EmptyString => false
  | String _ t => contains k t
  end.

(** [x in [a; b; ...]] for strings. *)
Definition str_in (x : string) (l : list string) : bool :=
  existsb (String.eqb x) l.

End Py.

(* ------------------------------------------------------------------ *)
(** ** Cells *)

Inductive cell : Type :=
| VNone                    (* Python None *)
| VNaN                     (* float('nan') *)
| VStr (s : string)        (* a str *)
| VObj (repr : string).    (* any other non-NaN scalar, with its str() *)

(** [str(v)] *)
Definition cell_str (v : cell) : string :=
  match v with
  | VNone => "None"
  | VNaN => "nan"
  | VStr s => s
  | VObj r => r
  end.

(** [_is_blank] (banks_peridics_page.py, lines 125-131). *)
Definition _is_blank (v : cell) : bool :=
  match v with
  | VNone => true
  | VNaN => true            (* isinstance(v, float) and pd.isna(v) *)
  | _ =>
      let s := Py.strip (cell_str v) in
      String.eqb s "" || Py.str_in (Py.lower s) ["nan"; "none"]
  end.

(* ------------------------------------------------------------------ *)
(** ** Ticket normalisation (tickets_page.py, lines 155-196), per cell *)

(** One cell of [_clean_text]: [astype(str).str.strip()] followed by
    [replace({"": None, "nan": None, "None": None})]. *)
Definition _clean_text_cell (v : cell) : option string :=
  let s := Py.strip (cell_str v) in
  if Py.str_in s [""; "nan"; "None"] then None else Some s.

(** One cell of [normalize_priority]. *)
Definition normalize_priority_cell (v : cell) : option string :=
  match _clean_text_cell v with
  | None => None
  | Some s =>
      let vl := Py.lower s in
      if Py.contains "high" vl then Some "High"
      else if Py.contains "medium" vl then Some "Medium"
      else if Py.contains "low" vl then Some "Low"
      else None
  end.

(** One cell of [normalize_status]. *)
Definition normalize_status_cell (v : cell) : option string :=
  match _clean_text_cell v with
  | None => None
  | Some s =>
      let vl := Py.lower s in
      if Py.contains "closed" vl then Some "Closed"
      else if Py.contains "progress" vl then Some "In Progress"
      else if Py.contains "open" vl then Some "Open"
      else Some "Other"
  end.

(** One cell of [normalize_assigned_to]. *)
Definition normalize_assigned_to_cell (v : cell) : option string :=
  _clean_text_cell v.

(** A normalised value written back into the frame: [None] stays missing. *)
Definition of_opt (o : option string) : cell :=
  match o with Some s => VStr s | None => VNone end.

(* ------------------------------------------------------------------ *)
(** ** Data frames *)

(** A pandas [DataFrame]: its column labels and its rows, each row holding
    one cell per column, in column order. *)
Record frame : Type := mkFrame { columns : list string; rows : list (list cell) }.

(** Every row has one cell per column, as in any frame pandas builds. *)
Definition well_formed (df : frame) : Prop :=
  Forall (fun r => List.length r = List.length (columns df)) (rows df).

(** Position of the label [c] among the columns. *)
Fixpoint col_index (c : string) (cols : list string) : option nat :=
  match cols with
  | [] => None
  | x :: t => if String.eqb x c then Some 0 else option_map S (col_index c t)
  end.

Definition has_col (c : string) (cols : list string) : bool :=
  match col_index c cols with Some _ => true | None => false end.

(** [row.get(c)]: the cell of column [c], [None] when there is none. *)
Definition get_cell (cols : list string) (r : list cell) (c : string) : cell :=
  match col_index c cols with
  | Some i => nth i r VNone
  | None => VNone
  end.

Fixpoint list_set {A} (i : nat) (v : A) (l : list A) : list A :=
  match l, i with
  | [], _ => []
  | _ :: t, 0 => v :: t
  | x :: t, S j => x :: list_set j v t
  end.

(** [d[c] = <one value per row>]: overwrite the column, or append it. *)
Definition set_col (df : frame) (c : string) (g : list cell -> cell) : frame :=
  match col_index c (columns df) with
  | Some i => mkFrame (columns df) (map (fun r => list_set i (g r) r) (rows df))
  | None => mkFrame (columns df ++ [c])%list (map (fun r => (r ++ [g r])%list) (rows df))
  end.

(** The same assignment seen on the labels and on one row. *)
Definition set_cols (cols : list string) (c : string) : list string :=
  match col_index c cols with Some _ => cols | None => (cols ++ [c])%list end.

Definition set_row (cols : list string) (c : string) (v : cell) (r : list cell) : list cell :=
  match col_index c cols with Some i => list_set i v r | None => (r ++ [v])%list end.

(** [pd.isna] on a cell. *)
Definition is_na (v : cell) : bool :=
  match v with VNone | VNaN => true | _ => false end.

(** [d.dropna(subset=cs)] *)
Definition dropna_subset (df : frame) (cs : list string) : frame :=
  mkFrame (columns df)
    (filter (fun r => forallb (fun c => negb (is_na (get_cell (columns df) r c))) cs)
            (rows df)).

(** [df.iloc[0:0]]: same columns, no rows. *)
Definition iloc_empty (df : frame) : frame := mkFrame (columns df) [].

(** Python exceptions raised by the modelled code. *)
Inductive exn : Type :=
| KeyError (key : string).

(** [_prep_common] (tickets_page.py, lines 201-220). *)
Definition _prep_common (df : frame) (status_col : string) : frame :=
  if negb (has_col status_col (columns df)) then iloc_empty df
  else
    let d := df in
    let d :=
      if has_col "Priority" (columns d)
      then set_col d "Priority"
             (fun r => of_opt (normalize_priority_cell (get_cell (columns d) r "Priority")))
      else set_col d "Priority" (fun _ => VNone) in
    let d :=
      set_col d status_col
        (fun r => of_opt (normalize_status_cell (get_cell (columns d) r status_col))) in
    let d :=
      if has_col "Assigned To" (columns d)
      then set_col d "Assigned To"
             (fun r => of_opt (normalize_assigned_to_cell (get_cell (columns d) r "Assigned To")))
      else set_col d "Assigned To" (fun _ => VNone) in
    dropna_subset d ["Priority"; status_col].

(** [d[c] == "Closed"] on one cell. *)
Definition eq_closed (v : cell) : bool :=
  match v with VStr s => String.eqb s "Closed" | _ => false end.

(** [d[m]] where the mask [m] is computed from column [c]: indexing a
    missing column raises [KeyError]. *)
Definition mask_by_col (d : frame) (c : string) (keep : cell -> bool) : exn + frame :=
  if has_col c (columns d)
  then inr (mkFrame (columns d) (filter (fun r => keep (get_cell (columns d) r c)) (rows d)))
  else inl (KeyError c).

(** [filter_not_closed] (tickets_page.py, lines 222-224). *)
Definition filter_not_closed (df : frame) (status_col : string) : exn + frame :=
  let d := _prep_common df status_col in
  mask_by_col d status_col (fun v => negb (eq_closed v)).

(** [filter_closed] (tickets_page.py, lines 226-228). *)
Definition filter_closed (df : frame) (status_col : string) : exn + frame :=
  let d := _prep_common df status_col in
  mask_by_col d status_col eq_closed.

(* ------------------------------------------------------------------ *)
(** ** Header detection (banks_peridics_page.py, lines 133-160) *)

Definition is_str (v : cell) : bool :=
  match v with VStr _ => true | _ => false end.

(** [float(n)] for an [int] [n]: the IEEE binary64 value nearest to [n]
    (ties to even), for [n] below 2^63. *)
Definition float_of_nat (n : nat) : float :=
  PrimFloat.of_uint63 (Uint63.of_Z (Z.of_nat n)).

(** The number of columns of an Excel sheet is at most 16384 (XFD), so is
    the length of every row pandas reads from it. *)
#[warnings="-abstract-large-number"]
Definition EXCEL_MAX_COLUMNS : nat := 16384.

(** The score of one preview row, or [None] for a row that is skipped
    ([len(non_blank) < 2]).  Python floats are IEEE binary64, as Rocq's
    primitive [float]: [len(non_blank) * 1.5] and [str_like * 2.0] convert
    the [int] to a float and multiply; [len(set(as_str)) / max(1, len(as_str))]
    is true division of two ints, which CPython computes as
    [float(a) / float(b)] for operands below 2^53; the three terms are added
    from left to right. *)
Definition row_score (row : list cell) : option float :=
  let non_blank := filter (fun v => negb (_is_blank v)) row in
  if List.length non_blank <? 2 then None
  else
    let as_str := map (fun v => Py.strip (cell_str v)) non_blank in
    let str_like := List.length (filter is_str non_blank) in
    let uniqueness :=
      PrimFloat.div (float_of_nat (List.length (nodup string_dec as_str)))
                    (float_of_nat (Nat.max 1 (List.length as_str))) in
    Some (PrimFloat.add
            (PrimFloat.add (PrimFloat.mul (float_of_nat (List.length non_blank)) 1.5%float)
                           (PrimFloat.mul (float_of_nat str_like) 2.0%float))
            (PrimFloat.mul uniqueness 3.0%float)).

(** The [for i in range(len(preview))] loop, with [best_i], [best_score]. *)
Fixpoint scan_rows_from (i : nat) (preview : list (list cell))
    (best_i : nat) (best_score : float) : nat :=
  match preview with
  | [] => best_i
  | row :: rest =>
      match row_score row with
      | None => scan_rows_from (S i) rest best_i best_score
      | Some score =>
          if PrimFloat.ltb best_score score      (* score > best_score *)
          then scan_rows_from (S i) rest i score
          else scan_rows_from (S i) rest best_i best_score
      end
  end.

(** [detect_header_row]: [sheet] is the sheet read with [header=None];
    [nrows=scan_rows] keeps its first [scan_rows] rows. *)
Definition detect_header_row (sheet : list (list cell)) (scan_rows : nat) : nat :=
  let preview := firstn scan_rows sheet in
  scan_rows_from 0 preview 0 (-1)%float.

(** The score as the specification writes it, in exact arithmetic:
    [1.5 * non_blank + 2.0 * text cells + 3.0 * distinct / non_blank]. *)
Definition Q_of_nat (n : nat) : Q := inject_Z (Z.of_nat n).

Definition spec_row_score (row : list cell) : option Q :=
  let non_blank := filter (fun v => negb (_is_blank v)) row in
  if List.length non_blank <? 2 then None
  else
    let as_str := map (fun v => Py.strip (cell_str v)) non_blank in
    let str_like := List.length (filter is_str non_blank) in
    let uniqueness :=
      (Q_of_nat (List.length (nodup string_dec as_str))
      / Q_of_nat (Nat.max 1 (List.length as_str)))%Q in
    Some (Q_of_nat (List.length non_blank) * (3 # 2)
          + Q_of_nat str_like * 2 + uniqueness * 3)%Q.

(** Floats that are not NaN, and floats that are [+0.0], positive or
    [+inf]: the scores are among the latter. *)
Definition not_nan (x : spec_float) : bool :=
  match x with S754_nan => false | _ => true end.

Definition pos_sf (x : spec_float) : bool :=
  match x with
  | S754_zero false | S754_finite false _ _ | S754_infinity false => true
  | _ => false
  end.

Definition is_fin_pos (x : spec_float) : bool :=
  match x with S754_finite false _ _ => true | _ => false end.

(* ------------------------------------------------------------------ *)
(** ** Reading a sheet with the detected header (lines 162-172) *)

(** pandas' default [na_values]: string cells read as NaN. *)
Definition default_na_values : list string :=
  [""; "#N/A"; "#N/A N/A"; "#NA"; "-1.#IND"; "-1.#QNAN"; "-NaN"; "-nan";
   "1.#IND"; "1.#QNAN"; "<NA>"; "N/A"; "NA"; "NULL"; "NaN"; "None";
   "n/a"; "nan"; "null"].

Definition read_cell (v : cell) : cell :=
  match v with
  | VStr s => if Py.str_in s default_na_values then VNaN else v
  | VNone => VNaN
  | _ => v
  end.

Definition string_of_nat (n : nat) : string :=
  NilEmpty.string_of_uint (Nat.to_uint n).

(** Label pandas gives to column [j] from its header cell. *)
Definition header_label (j : nat) (v : cell) : string :=
  if is_na (read_cell v) then "Unnamed: " ++ string_of_nat j else cell_str v.

(** [pd.read_excel(..., header=header_row)]: the row [header_row] gives the
    labels, the rows after it are the data (duplicate-label mangling is not
    modelled). *)
Definition read_excel_with_header (sheet : list (list cell)) (header_row : nat) : frame :=
  match skipn header_row sheet with
  | [] => mkFrame [] []
  | hdr :: data =>
      mkFrame (map (fun '(j, v) => header_label j v) (combine (seq 0 (List.length hdr)) hdr))
              (map (map read_cell) data)
  end.

(** [df.dropna(axis=1, how="all")] *)
Definition dropna_cols_all (df : frame) : frame :=
  let keep := filter (fun j => existsb (fun r => negb (is_na (nth j r VNone))) (rows df))
                     (seq 0 (List.length (columns df))) in
  mkFrame (map (fun j => nth j (columns df) "") keep)
          (map (fun r => map (fun j => nth j r VNone) keep) (rows df)).

(** [df.dropna(axis=0, how="all")] *)
Definition dropna_rows_all (df : frame) : frame :=
  mkFrame (columns df) (filter (fun r => existsb (fun v => negb (is_na v)) r) (rows df)).

(** [read_sheet_with_detected_header] *)
Definition read_sheet_with_detected_header (sheet : list (list cell)) (header_row : nat) : frame :=
  let df := read_excel_with_header sheet header_row in
  let df := dropna_rows_all (dropna_cols_all df) in
  mkFrame (map Py.strip (columns df)) (rows df).

(* ------------------------------------------------------------------ *)
(** ** Required columns (lines 177-185) *)

Definition BANK_FALLBACKS : list string := ["bank"; "banco"].

(** [find_required_col] *)
Fixpoint find_required_col (cols : list string) (fallbacks : list string) : option string :=
  match cols with
  | [] => None
  | c :: rest =>
      let cl := Py.lower (Py.strip c) in
      if existsb (fun k => Py.contains k cl) fallbacks then Some c
      else find_required_col rest fallbacks
  end.

(* ------------------------------------------------------------------ *)
(** ** Group-by counts *)

Definition cell_eqb (a b : cell) : bool :=
  match a, b with
  | VNone, VNone | VNaN, VNaN => true
  | VStr x, VStr y | VObj x, VObj y => String.eqb x y
  | _, _ => false
  end.

Fixpoint cells_eqb (a b : list cell) : bool :=
  match a, b with
  | [], [] => true
  | x :: a', y :: b' => cell_eqb x y && cells_eqb a' b'
  | _, _ => false
  end.

(** One more row with key [k] in the table of group sizes. *)
Fixpoint bump {K} (eqb : K -> K -> bool) (k : K) (acc : list (K * nat)) : list (K * nat) :=
  match acc with
  | [] => [(k, 1)]
  | (k', n) :: rest => if eqb k' k then (k', S n) :: rest else (k', n) :: bump eqb k rest
  end.

(** [.groupby(key).size()] over the keys of the rows: one entry per distinct
    key with its number of rows (groups are listed in order of first
    appearance; pandas sorts them, which no count depends on). *)
Definition group_count {K} (eqb : K -> K -> bool) (keys : list K) : list (K * nat) :=
  fold_left (fun acc k => bump eqb k acc) keys [].

(** [df.groupby(by).size().reset_index(name="Count")]: rows with a missing
    value in one of the [by] columns belong to no group ([dropna=True]). *)
Definition groupby_size (df : frame) (by_ : list string) : list (list cell * nat) :=
  group_count cells_eqb
    (filter (fun key => forallb (fun v => negb (is_na v)) key)
            (map (fun r => map (get_cell (columns df) r) by_) (rows df))).

Definition total_count {K} (g : list (K * nat)) : nat := fold_right (fun e n => snd e + n) 0 g.

(** [open_stacked_chart]: [None] when the thumb card is shown instead of
    the chart, otherwise the count table [g] drawn as bars. *)
Definition open_stacked_chart (df : frame) (status_col : string) : option (list (list cell * nat)) :=
  match rows df with
  | [] => None
  | _ => Some (groupby_size df ["Priority"; status_col])
  end.

(** [assigned_to_bars_stacked_by_priority], same convention. *)
Definition assigned_to_bars_stacked_by_priority (df_all : frame) : option (list (list cell * nat)) :=
  match rows df_all with
  | [] => None
  | _ => Some (groupby_size df_all ["Assigned To"; "Priority"])
  end.

(** [df[cs]] for columns [cs] of [df]. *)
Definition select_cols (df : frame) (cs : list string) : frame :=
  mkFrame cs (map (fun r => map (get_cell (columns df) r) cs) (rows df)).

(** One source of the "Assignees / Open" tab: [df_nc[["Assigned To", "Priority"]]]
    when [df_nc] is not empty and has the column. *)
Definition open_assignee_part (df_nc : frame) : list (list cell) :=
  match rows df_nc with
  | [] => []
  | _ => if has_col "Assigned To" (columns df_nc)
         then rows (select_cols df_nc ["Assigned To"; "Priority"]) else []
  end.

(* ------------------------------------------------------------------ *)
(** ** Monthly trend (tickets_page.py, lines 323-342) *)

Record datetime : Type := mkDatetime {
  year : Z; month : nat; day : nat; seconds : nat  (* time of day *)
}.

Definition datetime_eqb (a b : datetime) : bool :=
  Z.eqb (year a) (year b) && Nat.eqb (month a) (month b)
  && Nat.eqb (day a) (day b) && Nat.eqb (seconds a) (seconds b).

(** [.dt.to_period("M").dt.to_timestamp()]: midnight of the first day of
    the month. *)
Definition month_start (d : datetime) : datetime := mkDatetime (year d) (month d) 1 0.

Definition DATE_COL : string := "Date of the Work".

Section Trend.

(** [pd.to_datetime(..., errors="coerce")] on one cell: [None] for NaT. *)
Variable to_datetime : cell -> option datetime.

(** The monthly counts of one sheet: [(Month, Count)] rows of [g]. *)
Definition month_counts (df : frame) : list (datetime * nat) :=
  let parsed := map (fun r => to_datetime (get_cell (columns df) r DATE_COL)) (rows df) in
  let kept := flat_map (fun o => match o with Some d => [d] | None => [] end) parsed in
  group_count datetime_eqb (map month_start kept).

(** [allg] of [monthly_trend_chart]: [(Month, Count, Type)] rows, sheets
    without the date column skipped. *)
Definition monthly_trend_rows (data_by_sheet : list (string * frame))
    : list (datetime * nat * string) :=
  flat_map (fun '(name, df) =>
              if has_col DATE_COL (columns df)
              then map (fun '(m, c) => (m, c, name)) (month_counts df)
              else [])
           data_by_sheet.

(** The number of rows of [df] whose date parses into the month [m]. *)
Definition rows_in_month (df : frame) (m : datetime) : nat :=
  List.length (filter (fun r => match to_datetime (get_cell (columns df) r DATE_COL) with
                                | Some d => datetime_eqb (month_start d) m
                                | None => false
                                end) (rows df)).

End Trend.

(** The rows of the trend table for sheet [name] and month [m]. *)
Definition trend_entries (name : string) (m : datetime) (allg : list (datetime * nat * string))
    : list (datetime * nat * string) :=
  filter (fun e => String.eqb (snd e) name && datetime_eqb (fst (fst e)) m) allg.

(** A date parser for examples: two ISO dates of March 2024, NaT otherwise. *)
Definition example_to_datetime (v : cell) : option datetime :=
  if String.eqb (cell_str v) "2024-03-15" then Some (mkDatetime 2024 3 15 0)
  else if String.eqb (cell_str v) "2024-03-02 01:00" then Some (mkDatetime 2024 3 2 3600)
  else None.

Definition trend_example : list (string * frame) :=
  [("Work Orders", mkFrame ["Priority"; "Date of the Work"]
      [[VStr "High"; VObj "2024-03-15"]; [VStr "Low"; VObj "2024-03-02 01:00"];
       [VStr "Low"; VStr "soon"]; [VStr "High"; VNaN]]);
   ("Request", mkFrame ["Priority"; "Status"] [[VStr "High"; VStr "Open"]])].

(* ------------------------------------------------------------------ *)
(** ** Banks page: cell normalisation, styling, filters, pies, matrix *)

Module Banks.

Definition DONE_WORDS : list string := ["done"; "completed"; "complete"; "ok"; "yes"].
Definition PENDING_WORDS : list string :=
  ["pending"; "pendiente"; "to do"; "todo"; "open"; "in progress"].
Definition NOT_SCHEDULED_WORDS : list string := ["not scheduled"; "n/a"; "na"; "tbd"].

(** [any(w in s for w in WORDS)] *)
Definition any_word (words : list string) (s : string) : bool :=
  existsb (fun w => Py.contains w s) words.

(** [normalize_status_cell] (banks_peridics_page.py, lines 197-207). *)
Definition normalize_status_cell (v : cell) : option string :=
  if _is_blank v then None
  else
    let s := Py.lower (Py.strip (cell_str v)) in
    if any_word DONE_WORDS s then Some "Done"
    else if any_word PENDING_WORDS s then Some "Pending"
    else if any_word NOT_SCHEDULED_WORDS s then Some "Not Scheduled"
    else None.

(** One cell of [to_text_series] (lines 187-188). *)
Definition to_text_cell (v : cell) : cell :=
  let s := Py.strip (cell_str v) in
  if Py.str_in s [""; "nan"; "None"] then VNone else VStr s.

(** [BANK_STYLES]: background and text colours per bank. *)
Definition BANK_STYLES : list (string * (string * string)) :=
  [("TD", ("#54B848", "white")); ("CIBC", ("#6f1729", "white"));
   ("NB", ("white", "red")); ("RBC", ("yellow", "blue")); ("BMO", ("blue", "white"))].

Definition ADDRESS_STYLE : string := "background-color:#2b2b2b; color:white; font-weight:600;".
Definition PENDING_STYLE : string := "background-color:#ffcdd2; color:#b71c1c; font-weight:600;".
Definition DONE_STYLE : string := "background-color:#c8e6c9; color:#1b5e20; font-weight:600;".

(** [v in BANK_STYLES] / [BANK_STYLES[v]]: only a [str] equal to a key is found. *)
Definition bank_style (v : cell) : option (string * string) :=
  match v with
  | VStr s =>
      match find (fun e => String.eqb (fst e) s) BANK_STYLES with
      | Some (_, st) => Some st
      | None => None
      end
  | _ => None
  end.

(** [cell_style] (lines 251-266). *)
Definition cell_style (v : cell) (is_bank_col is_addr_col : bool) : string :=
  if is_addr_col then ADDRESS_STYLE
  else if is_bank_col then
    match bank_style v with
    | Some (bg, fg) => "background-color:" ++ bg ++ "; color:" ++ fg ++ "; font-weight:700;"
    | None => ""
    end
  else
    match normalize_status_cell v with
    | Some n =>
        if String.eqb n "Pending" then PENDING_STYLE
        else if String.eqb n "Done" then DONE_STYLE
        else ""
    | None => ""
    end.

(** [s.isin(l)] on one cell. *)
Definition isin (v : cell) (l : list cell) : bool := existsb (cell_eqb v) l.

(** [.unique()], first occurrences kept. *)
Fixpoint unique_cells (l : list cell) : list cell :=
  match l with
  | [] => []
  | v :: t => v :: filter (fun w => negb (cell_eqb v w)) (unique_cells t)
  end.

Definition column_cells (df : frame) (c : string) : list cell :=
  map (fun r => get_cell (columns df) r c) (rows df).

(** [df[c].dropna().unique()] (the options are then sorted for display,
    which no membership test depends on). *)
Definition column_values (df : frame) (c : string) : list cell :=
  unique_cells (filter (fun v => negb (is_na v)) (column_cells df c)).

(** Lines 321-337: clean the bank and address columns, then keep the rows
    whose bank and address are among the selected ones (all values when
    nothing is selected). *)
Definition prepare_bank_addr (df_raw : frame) (bank_col addr_col : string) : frame :=
  let d := set_col df_raw bank_col (fun r => to_text_cell (get_cell (columns df_raw) r bank_col)) in
  set_col d addr_col (fun r => to_text_cell (get_cell (columns d) r addr_col)).

Definition filter_bank_addr (df_raw : frame) (bank_col addr_col : string)
    (bank_sel addr_sel : list cell) : frame :=
  let bank_vals := column_values df_raw bank_col in
  let addr_vals := column_values df_raw addr_col in
  let banks_to_use := match bank_sel with [] => bank_vals | _ => bank_sel end in
  let addrs_to_use := match addr_sel with [] => addr_vals | _ => addr_sel end in
  mkFrame (columns df_raw)
    (filter (fun r => isin (get_cell (columns df_raw) r bank_col) banks_to_use
                      && isin (get_cell (columns df_raw) r addr_col) addrs_to_use)
            (rows df_raw)).

(** [task_cols] (line 344). *)
Definition task_cols (df_raw : frame) (bank_col addr_col : string) : list string :=
  filter (fun c => negb (String.eqb c bank_col) && negb (String.eqb c addr_col)) (columns df_raw).

(** [for i in range(0, len(task_cols), 6): block = task_cols[i : i + 6]] *)
Definition task_blocks {A} (cols : list A) : list (list A) :=
  map (fun k => firstn 6 (skipn (6 * k) cols))
      (seq 0 ((List.length cols + 5) / 6)).

(** Lines 350-353: the Done and Pending counts of one task column. *)
Definition pie_counts (df : frame) (c : string) : nat * nat :=
  let norm := map normalize_status_cell (column_cells df c) in
  (List.length (filter (fun o => match o with Some n => String.eqb n "Done" | None => false end) norm),
   List.length (filter (fun o => match o with Some n => String.eqb n "Pending" | None => false end) norm)).

(** [make_done_pending_pie] (lines 214-232): [None] for the "n/a" caption,
    otherwise the two slices of the pie. *)
Definition make_done_pending_pie (done pending : nat) : option (list (string * nat)) :=
  if done + pending =? 0 then None else Some [("Done", done); ("Pending", pending)].

(** Lines 355-357: the pie title, over the code points of [str(c)]. *)
Definition pie_title {A} (title : list A) (ellipsis : A) : list A :=
  if 22 <? List.length title then (firstn 21 title ++ [ellipsis])%list else title.

(** Line 371: a matrix cell as shown. *)
Definition show_cell (v : cell) : cell :=
  if _is_blank v then VNone else VStr (Py.strip (cell_str v)).

End Banks.

(* ------------------------------------------------------------------ *)
(** ** Tickets page: row colours, chart colours, assignee sources *)

Module Tickets.

(** [d[key]] on a dict literal. *)
Definition lookup_str {A} (k : string) (m : list (string * A)) : option A :=
  option_map snd (find (fun e => String.eqb (fst e) k) m).

Definition PRIORITY_COLORS : list (string * string) :=
  [("High", "#d32f2f"); ("Medium", "#fbc02d"); ("Low", "#388e3c")].
Definition PRIORITY_COLORS_LIGHT : list (string * string) :=
  [("High", "#f28b82"); ("Medium", "#ffe082"); ("Low", "#a5d6a7")].

(** [PRIORITY_COLORS[p]] and [PRIORITY_COLORS_LIGHT[p]], for the three keys. *)
Definition color_of (p : string) : string :=
  match lookup_str p PRIORITY_COLORS with Some c => c | None => "" end.
Definition light_color_of (p : string) : string :=
  match lookup_str p PRIORITY_COLORS_LIGHT with Some c => c | None => "" end.

(** [row_style] of [style_by_priority] (tickets_page.py, lines 233-244):
    one style per entry of the row, i.e. per column. *)
Definition row_style (cols : list string) (r : list cell) : list string :=
  let p := get_cell cols r "Priority" in
  let n := List.length cols in
  if cell_eqb p (VStr "High") then repeat ("background-color: " ++ light_color_of "High" ++ "; color:black") n
  else if cell_eqb p (VStr "Medium") then repeat ("background-color: " ++ light_color_of "Medium" ++ "; color:black") n
  else if cell_eqb p (VStr "Low") then repeat ("background-color: " ++ light_color_of "Low" ++ "; color:black") n
  else repeat "" n.

Definition style_by_priority (df : frame) : list (list string) :=
  map (row_style (columns df)) (rows df).

(** [color_map] of [open_stacked_chart] (lines 257-261). *)
Definition open_color_map : list (string * string) :=
  flat_map (fun p => [((p ++ "|Open")%string, color_of p);
                      ((p ++ "|In Progress")%string, light_color_of p);
                      ((p ++ "|Other")%string, color_of p)])
           ["High"; "Medium"; "Low"].

(** [g["Priority"] + "|" + g[status_col]] on one group key; [None] where the
    concatenation of non-[str] values would raise. *)
Definition color_key (key : list cell) : option string :=
  match key with
  | [VStr p; VStr s] => Some (p ++ "|" ++ s)%string
  | _ => None
  end.

(** [closed_pie_chart] (lines 278-293): [None] for the thumb card, otherwise
    the [groupby("Priority").size()] table drawn as the pie. *)
Definition closed_pie_chart (df : frame) : option (list (list cell * nat)) :=
  match rows df with
  | [] => None
  | _ => Some (groupby_size df ["Priority"])
  end.

(** [SHEETS] (lines 44-48): tab name, sheet name and status column. *)
Definition SHEETS : list (string * (string * string)) :=
  [("Work Orders", ("Work Orders", "General Status"));
   ("Request", ("Request", "Status"));
   ("Complaints", ("Complaints", "Status"))].

Definition sheet_status_col (name : string) : option string :=
  option_map snd (lookup_str name SHEETS).

(** The loops of the "Assignees" tabs (lines 415-449): for each selected
    source, the subset given by [flt] ([filter_not_closed] or
    [filter_closed]) contributes [d[["Assigned To", "Priority"]]] when it is
    not empty and has the column; the parts are then concatenated. *)
Fixpoint combined_sources (flt : frame -> string -> exn + frame) (data : string -> frame)
    (sources : list string) : exn + list (list cell) :=
  match sources with
  | [] => inr []
  | name :: rest =>
      match sheet_status_col name with
      | None => inl (KeyError name)
      | Some status_col =>
          match flt (data name) status_col with
          | inl e => inl e
          | inr d =>
              match combined_sources flt data rest with
              | inl e => inl e
              | inr tl => inr (open_assignee_part d ++ tl)%list
              end
          end
      end
  end.

(** The value [_prep_common] gives column [c] of the row built from [r]. *)
Definition prep_expected (status_col : string) (cols : list string) (r : list cell) (c : string) : cell :=
  if String.eqb c "Priority" then of_opt (normalize_priority_cell (get_cell cols r "Priority"))
  else if String.eqb c status_col then of_opt (normalize_status_cell (get_cell cols r status_col))
  else if String.eqb c "Assigned To" then of_opt (normalize_assigned_to_cell (get_cell cols r "Assigned To"))
  else get_cell cols r c.

(** Whether [_prep_common] keeps the row built from [r]. *)
Definition prep_keep (status_col : string) (cols : list string) (r : list cell) : bool :=
  match normalize_priority_cell (get_cell cols r "Priority"),
        normalize_status_cell (get_cell cols r status_col) with
  | Some _, Some _ => true
  | _, _ => false
  end.

(** The row [_prep_common] builds from [r] before [dropna]: Priority,
    then the status column, then "Assigned To" normalised in place (or
    appended). *)
Definition prep_row (status_col : string) (cols : list string) (r : list cell) : list cell :=
  let cols1 := set_cols cols "Priority" in
  let r1 := set_row cols "Priority" (of_opt (normalize_priority_cell (get_cell cols r "Priority"))) r in
  let cols2 := set_cols cols1 status_col in
  let r2 := set_row cols1 status_col (of_opt (normalize_status_cell (get_cell cols1 r1 status_col))) r1 in
  set_row cols2 "Assigned To" (of_opt (normalize_assigned_to_cell (get_cell cols2 r2 "Assigned To"))) r2.

Definition prep_cols (status_col : string) (cols : list string) : list string :=
  set_cols (set_cols (set_cols cols "Priority") status_col) "Assigned To".

End Tickets.

(* ------------------------------------------------------------------ *)
(** ** Microsoft Graph helpers: JSON answers, [graph_get], [resolve_drive_id]
    (tickets_page.py, lines 95-114; the same code is in
    banks_peridics_page.py, lines 81-100, and utils/ms_graph_excel.py,
    lines 78-97) *)

Module Graph.

(** A value produced by [r.json()]. *)
#[warnings="-register-all"]
Inductive json : Type :=
| JNull
| JBool (b : bool)
| JNum (repr : string)
| JStr (s : string)
| JList (items : list json)
| JObj (fields : list (string * json)).

(** The value of a key of a decoded object ([json.loads] keeps the last of
    duplicate keys). *)
Definition lookup_field (k : string) (fs : list (string * json)) : option json :=
  option_map snd (find (fun e => String.eqb (fst e) k) (rev fs)).

Inductive error : Type :=
| RuntimeError (msg : string)
| KeyError (key : string)
| IndexError
| TypeError
| AttributeError
| JSONDecodeError.

(** [j[k]] for a string key. *)
Definition get_item (j : json) (k : string) : error + json :=
  match j with
  | JObj fs => match lookup_field k fs with Some v => inr v | None => inl (KeyError k) end
  | _ => inl TypeError
  end.

(** [j.get(k)]: only a dict has [.get]. *)
Definition dict_get (j : json) (k : string) : error + json :=
  match j with
  | JObj fs => inr (match lookup_field k fs with Some v => v | None => JNull end)
  | _ => inl AttributeError
  end.

Record response : Type := mkResponse {
  status_code : nat; text : string; body : option json  (* [None]: not JSON *)
}.

(** [graph_get] on the response of its request. *)
Definition graph_get (r : response) : error + json :=
  if 400 <=? status_code r then inl (RuntimeError (text r))
  else match body r with Some j => inr j | None => inl JSONDecodeError end.

(** The two GET requests of [resolve_drive_id], by their parameters. *)
Inductive request : Type :=
| SiteRequest (hostname site_path : string)
| DrivesRequest (site_id : json).

Definition missing_site_msg : string := "Missing SP_HOSTNAME / SP_SITE_PATH in environment.".

(** [d.get("name") == SP_DRIVE_NAME] *)
Definition name_matches (drive_name : string) (d : json) : error + bool :=
  match dict_get d "name" with
  | inl e => inl e
  | inr (JStr n) => inr (String.eqb n drive_name)
  | inr _ => inr false
  end.

(** [next(d for d in drives if ...)] over a list: the first match. *)
Fixpoint first_named (drive_name : string) (l : list json) : error + option json :=
  match l with
  | [] => inr None
  | d :: t =>
      match name_matches drive_name d with
      | inl e => inl e
      | inr true => inr (Some d)
      | inr false => first_named drive_name t
      end
  end.

(** [next((d for d in drives if ...), drives[0])]: [iter(drives)] and
    [drives[0]] are evaluated before [next] runs. *)
Definition pick_drive (drive_name : string) (drives : json) : error + json :=
  match drives with
  | JList l =>
      match l with
      | [] => inl IndexError
      | d0 :: _ =>
          match first_named drive_name l with
          | inl e => inl e
          | inr (Some d) => inr d
          | inr None => inr d0
          end
      end
  | JObj _ => inl (KeyError "0")
  | JStr s => match s with EmptyString => inl IndexError | _ => inl AttributeError end
  | _ => inl TypeError
  end.

(** [not x] for an environment variable. *)
Definition env_missing (x : option string) : bool :=
  match x with Some s => String.eqb s "" | None => true end.

Definition resolve_drive_id (http : request -> response)
    (SP_HOSTNAME SP_SITE_PATH : option string) (SP_DRIVE_NAME : string) : error + json :=
  match SP_HOSTNAME, SP_SITE_PATH with
  | Some h, Some p =>
      if env_missing (Some h) || env_missing (Some p) then inl (RuntimeError missing_site_msg)
      else
        match graph_get (http (SiteRequest h p)) with
        | inl e => inl e
        | inr site =>
            match get_item site "id" with
            | inl e => inl e
            | inr site_id =>
                match graph_get (http (DrivesRequest site_id)) with
                | inl e => inl e
                | inr dj =>
                    match get_item dj "value" with
                    | inl e => inl e
                    | inr drives =>
                        match pick_drive SP_DRIVE_NAME drives with
                        | inl e => inl e
                        | inr drive => get_item drive "id"
                        end
                    end
                end
            end
        end
  | _, _ => inl (RuntimeError missing_site_msg)
  end.

(** Whether a drive object is named [drive_name]. *)
Definition has_name (drive_name : string) (d : json) : bool :=
  match d with
  | JObj fs => match lookup_field "name" fs with Some (JStr n) => String.eqb n drive_name | _ => false end
  | _ => false
  end.

Definition is_obj (j : json) : bool := match j with JObj _ => true | _ => false end.

End Graph.

(* ------------------------------------------------------------------ *)
(** ** Silent sign-in: [_acquire_token_silent] (app.py, lines 72-85) and
    [get_token_silent_only] (tickets_page.py, lines 77-90; the same in
    banks_peridics_page.py, lines 63-76). Both read the same token cache
    file; the MSAL calls are given by their results. *)

Module Auth.

Record msal_view : Type := mkMsalView {
  env_ok : bool;                                               (* TENANT_ID and CLIENT_ID set *)
  accounts : list Graph.json;                                  (* [app.get_accounts()] *)
  acquire_token_silent : Graph.json -> option (list (string * Graph.json));  (* dict or None *)
  has_state_changed : bool                                     (* after the silent call *)
}.

(** [result["access_token"]] when [result and "access_token" in result]. *)
Definition token_of (result : option (list (string * Graph.json))) : option Graph.json :=
  match result with
  | Some (_ :: _ as fs) => Graph.lookup_field "access_token" fs
  | _ => None
  end.

(** [_acquire_token_silent] of app.py: [None] when [_msal_app] stops the
    script ([st.error] then [st.stop()]); otherwise the token or [None],
    with whether [_save_cache] wrote the cache file. *)
Definition app_acquire_token_silent (m : msal_view) : option (option Graph.json * bool) :=
  if negb (env_ok m) then None
  else
    match accounts m with
    | [] => Some (None, false)
    | a :: _ =>
        match token_of (acquire_token_silent m a) with
        | Some t => Some (Some t, has_state_changed m)
        | None => Some (None, false)
        end
    end.

(** [get_token_silent_only] of the pages. *)
Definition get_token_silent_only (m : msal_view) : (Graph.error + Graph.json) * bool :=
  if negb (env_ok m) then (inl (Graph.RuntimeError "Missing TENANT_ID / CLIENT_ID in environment."), false)
  else
    match accounts m with
    | [] => (inl (Graph.RuntimeError "Not authenticated. Please connect in the main app (app.py)."), false)
    | a :: _ =>
        match token_of (acquire_token_silent m a) with
        | Some t => (inr t, has_state_changed m)
        | None => (inl (Graph.RuntimeError "Session expired. Please reconnect in the main app (app.py)."), false)
        end
    end.

End Auth.

(* ------------------------------------------------------------------ *)
(** ** Auxiliary definitions for the properties *)

(** A character list that does not start with a stripped character. *)
Definition head_ok (l : list ascii) : Prop :=
  match l with [] => True | c :: _ => Py.is_space c = false end.

(** The property the specification states for the loaded frame, with the
    blank predicate [_is_blank]. *)
Definition no_blank_lines (f : frame) : Prop :=
  (forall r, In r (rows f) -> exists v, In v r /\ _is_blank v = false) /\
  (forall j, j < List.length (columns f) ->
     exists r, In r (rows f) /\ _is_blank (nth j r VNone) = false) /\
  Forall (fun c => Py.strip c = c) (columns f).

(** The property the code gives, with pandas' missing-value test [is_na]. *)
Definition no_na_lines (f : frame) : Prop :=
  (forall r, In r (rows f) -> exists v, In v r /\ is_na v = false) /\
  (forall j, j < List.length (columns f) ->
     exists r, In r (rows f) /\ is_na (nth j r VNone) = false) /\
  Forall (fun c => Py.strip c = c) (columns f).

(** A banks sheet whose "Notes" column holds only whitespace. *)
Definition banks_sheet_example : list (list cell) :=
  [[VStr "Bank"; VStr "Notes"]; [VStr "TD"; VStr "  "]].

(** The header-detection example of the specification. *)
Definition header_example : list (list cell) :=
  [[VStr "Section A"]; [VStr "Name"; VStr "Date"; VStr "Status"];
   [VStr "John"; VStr "2024-01-01"; VStr "Open"]].

(** Two preview rows whose scores tie in exact arithmetic (both
    [22 + 13/14]) but not in floating point.  The first has six text cells
    "5", a number 5 and seven empty cells; the second has fourteen numbers
    whose texts take nine distinct values (the last seven share a float
    column with the empty cells of the first row, hence "8.0", "9.0"). *)
Definition tie_row_texts : list cell :=
  [VStr "5"; VStr "5"; VStr "5"; VStr "5"; VStr "5"; VStr "5"; VObj "5";
   VNaN; VNaN; VNaN; VNaN; VNaN; VNaN; VNaN].

Definition tie_row_numbers : list cell :=
  [VObj "1"; VObj "2"; VObj "3"; VObj "4"; VObj "5"; VObj "6"; VObj "7";
   VObj "8.0"; VObj "9.0"; VObj "8.0"; VObj "9.0"; VObj "8.0"; VObj "9.0"; VObj "8.0"].

(** A column label matching one of the keywords, as the specification puts it. *)
Definition col_matches (fallbacks : list string) (c : string) : Prop :=
  exists k, In k fallbacks /\ Py.contains k (Py.lower (Py.strip c)) = true.

(** A ticket sheet with an open ticket whose assignee cell is blank. *)
Definition ticket_blank_assignee : frame :=
  mkFrame ["Priority"; "Status"; "Assigned To"] [[VStr "High"; VStr "Open"; VStr "  "]].

(** The groups of key [m] in a count table. *)
Definition groups_of {K} (eqb : K -> K -> bool) (m : K) (g : list (K * nat)) : list (K * nat) :=
  filter (fun e => eqb (fst e) m) g.

(** The number of keys equal to [m]. *)
Definition count_key {K} (eqb : K -> K -> bool) (m : K) (keys : list K) : nat :=
  List.length (filter (fun k => eqb k m) keys).

(* ================================================================== *)
(** * Properties *)

(** ** String helper facts *)

Lemma str_in_spec (x : string) (l : list string) :
  Py.str_in x l = true <-> In x l.
Proof.
  unfold Py.str_in. rewrite existsb_exists. split.
  - intros (y & Hy & E). apply String.eqb_eq in E. subst. exact Hy.
  - intros H. exists x. split; [exact H | apply String.eqb_refl].
Qed.

Lemma lower_empty (s : string) : Py.lower s = "" <-> s = "".
Proof. destruct s; simpl; split; congruence. Qed.

(** For a cell that is not blank, [_clean_text] keeps its stripped text. *)
Lemma clean_text_nonblank (v : cell) :
  _is_blank v = false -> _clean_text_cell v = Some (Py.strip (cell_str v)).
Proof.
  unfold _is_blank, _clean_text_cell.
  destruct v as [| |s|s]; intros Hb; try discriminate Hb; simpl cell_str in *;
  generalize dependent (Py.strip s); intros t Hb;
  apply orb_false_iff in Hb as [He Hl];
  destruct (Py.str_in t [""; "nan"; "None"]) eqn:Hin; try reflexivity;
  apply str_in_spec in Hin; simpl in Hin;
  destruct Hin as [<-|[<-|[<-|[]]]]; discriminate.
Qed.

(** ** C4: the blank predicate *)

(** C4. [_is_blank] is total on cells and agrees with the table of the
    specification: [None], NaN, [""], ["nan"], ["None"] and ["  "] are blank,
    ["0"] is not; in general a cell is blank iff it is missing, a float NaN,
    or its [str()] text, stripped and lowercased, is [""], ["nan"] or ["none"]. *)
Theorem is_blank_spec :
  _is_blank VNone = true /\ _is_blank VNaN = true /\ _is_blank (VStr "") = true /\
  _is_blank (VStr "nan") = true /\ _is_blank (VStr "None") = true /\
  _is_blank (VStr "0") = false /\ _is_blank (VStr "  ") = true /\
  (forall v : cell, _is_blank v = true <->
     v = VNone \/ v = VNaN \/
     In (Py.lower (Py.strip (cell_str v))) [""; "nan"; "none"]).
Proof.
  repeat split; try reflexivity.
  - destruct v as [| |s|s]; intros H; auto; right; right;
      unfold _is_blank in H; simpl cell_str in *;
      (apply orb_true_iff in H as [H|H];
       [ apply String.eqb_eq in H; rewrite H; left; reflexivity
       | apply str_in_spec in H; right; exact H ]).
  - intros [->|[->|H]]; try reflexivity.
    destruct v as [| |s|s]; try reflexivity; unfold _is_blank;
      simpl cell_str in *; apply orb_true_iff;
      (destruct H as [H|H];
       [ left; apply String.eqb_eq; apply lower_empty; auto
       | right; apply str_in_spec; exact H ]).
Qed.

(** ** C2: ticket status classification *)

(** C2. For a non-blank cell, [normalize_status] tests the lowercased
    stripped text for the substrings "closed", "progress", "open" in this
    order and yields "Closed", "In Progress", "Open", else "Other";
    "Closed - done" and "closed" give "Closed", "re-opened" gives "Open". *)
Theorem normalize_status_order :
  (forall v : cell, _is_blank v = false ->
     normalize_status_cell v =
       Some (let vl := Py.lower (Py.strip (cell_str v)) in
             if Py.contains "closed" vl then "Closed"
             else if Py.contains "progress" vl then "In Progress"
             else if Py.contains "open" vl then "Open"
             else "Other")) /\
  normalize_status_cell (VStr "Closed - done") = Some "Closed" /\
  normalize_status_cell (VStr "closed") = Some "Closed" /\
  normalize_status_cell (VStr "re-opened") = Some "Open".
Proof.
  split; [|repeat split; reflexivity].
  intros v Hv. unfold normalize_status_cell. rewrite (clean_text_nonblank v Hv).
  cbv zeta.
  destruct (Py.contains "closed" _); [reflexivity|].
  destruct (Py.contains "progress" _); [reflexivity|].
  destruct (Py.contains "open" _); reflexivity.
Qed.

Lemma normalize_status_order_witness :
  _is_blank (VStr " Re-Opened ") = false /\
  normalize_status_cell (VStr " Re-Opened ") = Some "Open".
Proof.
  split; [reflexivity|].
  rewrite (proj1 normalize_status_order (VStr " Re-Opened ") eq_refl).
  reflexivity.
Defined.

(** ** C5: resolving a required column *)

(** C5. [find_required_col] returns the leftmost column whose stripped,
    lowercased label contains one of the keywords, and [None] when no column
    does; on ["Bank Name"; "Site Address"; "Notes"] it returns "Bank Name"
    for ["bank"; "banco"] and [None] for ["zzz"]. *)
Theorem find_required_col_first :
  (forall cols fallbacks c, find_required_col cols fallbacks = Some c ->
     exists pre post, cols = (pre ++ c :: post)%list /\ col_matches fallbacks c /\
       Forall (fun c' => ~ col_matches fallbacks c') pre) /\
  (forall cols fallbacks, find_required_col cols fallbacks = None ->
     Forall (fun c' => ~ col_matches fallbacks c') cols) /\
  find_required_col ["Bank Name"; "Site Address"; "Notes"] ["bank"; "banco"] = Some "Bank Name" /\
  find_required_col ["Bank Name"; "Site Address"; "Notes"] ["zzz"] = None.
Proof.
  assert (Hm : forall fb c, existsb (fun k => Py.contains k (Py.lower (Py.strip c))) fb = true
                            <-> col_matches fb c).
  { intros fb c. unfold col_matches. rewrite existsb_exists. reflexivity. }
  repeat split; try reflexivity.
  - intros cols fb c. induction cols as [|x cols IH]; simpl; [discriminate|].
    destruct (existsb _ fb) eqn:E.
    + intros [= <-]. exists [], cols. split; [reflexivity|].
      split; [apply Hm; exact E | constructor].
    + intros H. destruct (IH H) as (pre & post & -> & Hc & Hpre).
      exists (x :: pre), post. split; [reflexivity|]. split; [exact Hc|].
      constructor; [|exact Hpre]. intros Hx. apply Hm in Hx. congruence.
  - intros cols fb. induction cols as [|x cols IH]; simpl; [constructor|].
    destruct (existsb _ fb) eqn:E; [discriminate|].
    intros H. constructor; [|exact (IH H)].
    intros Hx. apply Hm in Hx. congruence.
Qed.

Lemma find_required_col_first_witness :
  find_required_col ["Notes"; " BANCO "] BANK_FALLBACKS = Some " BANCO " /\
  exists pre post, ["Notes"; " BANCO "] = (pre ++ " BANCO " :: post)%list /\
    col_matches BANK_FALLBACKS " BANCO ".
Proof.
  split; [reflexivity|].
  destruct (proj1 find_required_col_first ["Notes"; " BANCO "] BANK_FALLBACKS " BANCO " eq_refl)
    as (pre & post & E & Hc & _).
  exists pre, post. split; [exact E | exact Hc].
Defined.

(** ** C1: header detection *)

(** Rounding a non-negative mantissa gives [+0.0], a positive float or
    [+inf]; so do sums, products and quotients of such floats. *)
Section Rounding.
Variables prec emax : Z.

Lemma shr_1_nonneg (mrs : shr_record) : (0 <= shr_m mrs)%Z -> (0 <= shr_m (shr_1 mrs))%Z.
Proof. destruct mrs as [m r s]; simpl. destruct m as [|[p|p|]|p]; simpl; lia. Qed.

Lemma iter_shr_1_nonneg (p : positive) : forall mrs,
  (0 <= shr_m mrs)%Z -> (0 <= shr_m (iter_pos shr_1 p mrs))%Z.
Proof.
  induction p as [p IH|p IH|]; intros mrs H; simpl.
  - apply IH, IH, shr_1_nonneg, H.
  - apply IH, IH, H.
  - apply shr_1_nonneg, H.
Qed.

Lemma shr_fexp_nonneg (m e : Z) (l : location) :
  (0 <= m)%Z -> (0 <= shr_m (fst (shr_fexp prec emax m e l)))%Z.
Proof.
  intros Hm. unfold shr_fexp, shr.
  assert (H0 : (0 <= shr_m (shr_record_of_loc m l))%Z)
    by (destruct l as [|[]]; simpl; exact Hm).
  destruct (fexp prec emax (Zdigits2 m + e) - e)%Z; simpl; auto using iter_shr_1_nonneg.
Qed.

Lemma round_nearest_even_nonneg (m : Z) (l : location) :
  (0 <= m)%Z -> (0 <= round_nearest_even m l)%Z.
Proof. intros Hm. destruct l as [|[]]; simpl; try destruct (Z.even m); lia. Qed.

Lemma binary_round_aux_pos (mx ex : Z) (lx : location) :
  (0 <= mx)%Z -> pos_sf (binary_round_aux prec emax false mx ex lx) = true.
Proof.
  intros Hm. unfold binary_round_aux.
  pose proof (shr_fexp_nonneg mx ex lx Hm) as H1.
  destruct (shr_fexp prec emax mx ex lx) as [mrs' e'] eqn:E1. simpl in H1.
  pose proof (shr_fexp_nonneg _ e' loc_Exact
                (round_nearest_even_nonneg (shr_m mrs') (loc_of_shr_record mrs') H1)) as H2.
  destruct (shr_fexp prec emax _ e' loc_Exact) as [mrs'' e''] eqn:E2. simpl in H2.
  destruct (shr_m mrs'') as [|m|m]; [reflexivity | | lia].
  destruct (e'' <=? emax - prec)%Z; reflexivity.
Qed.

Lemma binary_round_pos (p : positive) (e : Z) :
  pos_sf (binary_round prec emax false p e) = true.
Proof.
  unfold binary_round. destruct (shl_align p e _) as [mz ez]. apply binary_round_aux_pos. lia.
Qed.

Lemma binary_normalize_pos (m e : Z) :
  (0 <= m)%Z -> pos_sf (binary_normalize prec emax m e false) = true.
Proof.
  intros Hm. destruct m as [|p|p]; [reflexivity | apply binary_round_pos | lia].
Qed.

Lemma SFadd_pos (x y : spec_float) :
  pos_sf x = true -> pos_sf y = true -> pos_sf (SFadd prec emax x y) = true.
Proof.
  destruct x as [[]|[]| |[] mx ex], y as [[]|[]| |[] my ey]; simpl; intros Hx Hy;
    try discriminate; try reflexivity.
  apply binary_round_pos.
Qed.

Lemma SFmul_pos (x : spec_float) (my : positive) (ey : Z) :
  pos_sf x = true -> pos_sf (SFmul prec emax x (S754_finite false my ey)) = true.
Proof.
  destruct x as [[]|[]| |[] mx ex]; simpl; intros Hx;
    try discriminate; try reflexivity.
  apply binary_round_aux_pos. lia.
Qed.

Lemma SFdiv_pos (x y : spec_float) :
  is_fin_pos x = true -> pos_sf y = true -> pos_sf (SFdiv prec emax x y) = true.
Proof.
  destruct x as [| | |[] mx ex]; simpl; intros Hx Hy; try discriminate.
  destruct y as [[]|[]| |[] my ey]; simpl in *; try discriminate; try reflexivity.
  unfold SFdiv_core_binary.
  set (m' := match _ with Z.pos _ => _ | Z0 => Z.pos mx | Z.neg _ => Z0 end).
  assert (Hm' : (0 <= m')%Z).
  { unfold m'. destruct (_ - _ - _)%Z; try lia. apply Z.shiftl_nonneg. lia. }
  destruct (Z.div_eucl m' (Z.pos my)) as [q r] eqn:E.
  assert (Hq : q = (m' / Z.pos my)%Z) by (unfold Z.div; rewrite E; reflexivity).
  apply binary_round_aux_pos. rewrite Hq. apply Z.div_pos; lia.
Qed.
End Rounding.

(** Float comparison, away from NaN, is a strict weak order. *)
Ltac cmp_cases :=
  repeat match goal with
  | |- context [Z.compare ?a ?b] => destruct (Z.compare_spec a b)
  | H : context [Z.compare ?a ?b] |- _ => destruct (Z.compare_spec a b)
  | |- context [Pos.compare_cont Eq ?a ?b] =>
      change (Pos.compare_cont Eq a b) with (Pos.compare a b); destruct (Pos.compare_spec a b)
  | H : context [Pos.compare_cont Eq ?a ?b] |- _ =>
      change (Pos.compare_cont Eq a b) with (Pos.compare a b) in H;
      destruct (Pos.compare_spec a b)
  end.

Lemma SFltb_irrefl (x : spec_float) : SFltb x x = false.
Proof.
  destruct x as [[]|[]| |[] m e]; unfold SFltb; simpl; try reflexivity;
    rewrite Z.compare_refl; change (Pos.compare_cont Eq m m) with (Pos.compare m m);
    rewrite Pos.compare_refl; reflexivity.
Qed.

Lemma SFltb_asym (x y : spec_float) : SFltb x y = true -> SFltb y x = false.
Proof.
  unfold SFltb.
  destruct x as [sx|sx| |sx mx ex], y as [sy|sy| |sy my ey];
    simpl; intros Hxy; try discriminate; try reflexivity;
    try destruct sx; try destruct sy; simpl in *;
    try discriminate; try reflexivity;
    cmp_cases; subst; simpl in *; try discriminate; try reflexivity; lia.
Qed.

Lemma SFltb_negtrans (x y z : spec_float) :
  not_nan y = true -> SFltb x z = true -> SFltb x y = true \/ SFltb y z = true.
Proof.
  unfold SFltb.
  destruct x as [sx|sx| |sx mx ex], y as [sy|sy| |sy my ey], z as [sz|sz| |sz mz ez];
    simpl; intros Hy Hxz; try discriminate;
    try destruct sx; try destruct sy; try destruct sz; simpl in *;
    try discriminate; try (left; reflexivity); try (right; reflexivity);
    cmp_cases; subst; simpl in *; try discriminate; try (left; reflexivity);
    try (right; reflexivity); lia.
Qed.

Lemma fltb_irrefl (x : float) : PrimFloat.ltb x x = false.
Proof. rewrite ltb_spec. apply SFltb_irrefl. Qed.

Lemma fltb_asym (x y : float) : PrimFloat.ltb x y = true -> PrimFloat.ltb y x = false.
Proof. rewrite !ltb_spec. apply SFltb_asym. Qed.

Lemma fltb_negtrans (x y z : float) :
  not_nan (Prim2SF y) = true -> PrimFloat.ltb x z = true ->
  PrimFloat.ltb x y = true \/ PrimFloat.ltb y z = true.
Proof. rewrite !ltb_spec. apply SFltb_negtrans. Qed.

Lemma fltb_trans (x y z : float) :
  not_nan (Prim2SF z) = true -> PrimFloat.ltb x y = true -> PrimFloat.ltb y z = true ->
  PrimFloat.ltb x z = true.
Proof.
  intros Hz Hxy Hyz. destruct (fltb_negtrans x z y Hz Hxy) as [H|H]; [exact H|].
  rewrite (fltb_asym _ _ Hyz) in H. discriminate.
Qed.

Lemma pos_sf_not_nan (x : spec_float) : pos_sf x = true -> not_nan x = true.
Proof. destruct x as [[]|[]| |[] m e]; simpl; congruence. Qed.

Lemma float_of_nat_pos (n : nat) : pos_sf (Prim2SF (float_of_nat n)) = true.
Proof.
  unfold float_of_nat. rewrite of_uint63_spec.
  apply binary_normalize_pos. apply Uint63.to_Z_bounded.
Qed.

(** Every length a row of an Excel sheet can have (at most 16384 columns)
    converts to a positive finite float. *)
Lemma float_of_nat_fin_pos (n : nat) :
  1 <= n <= EXCEL_MAX_COLUMNS -> is_fin_pos (Prim2SF (float_of_nat n)) = true.
Proof.
  intros Hn.
  assert (Hall : forallb (fun k => is_fin_pos (Prim2SF (float_of_nat k))) (seq 1 EXCEL_MAX_COLUMNS) = true)
    by (vm_compute; reflexivity).
  rewrite forallb_forall in Hall. apply Hall. apply in_seq. lia.
Qed.

Lemma length_nodup_le {A} (dec : forall x y : A, {x = y} + {x <> y}) (l : list A) :
  List.length (nodup dec l) <= List.length l.
Proof.
  apply NoDup_incl_length; [apply NoDup_nodup|].
  intros x Hx. apply nodup_In in Hx. exact Hx.
Qed.

Lemma length_nodup_pos {A} (dec : forall x y : A, {x = y} + {x <> y}) (l : list A) :
  l <> [] -> 1 <= List.length (nodup dec l).
Proof.
  destruct l as [|x l]; [congruence|]. intros _.
  assert (Hx : In x (nodup dec (x :: l))) by (apply nodup_In; left; reflexivity).
  destruct (nodup dec (x :: l)); [destruct Hx | simpl; lia].
Qed.

(** The score of a row of at most 16384 cells is [+0.0], positive or [+inf]. *)
Lemma row_score_pos (row : list cell) (s : float) :
  List.length row <= EXCEL_MAX_COLUMNS -> row_score row = Some s -> pos_sf (Prim2SF s) = true.
Proof.
  intros Hlen. unfold row_score.
  set (nb := filter (fun v => negb (_is_blank v)) row).
  destruct (List.length nb <? 2) eqn:E; [discriminate|]. intros [= <-].
  apply Nat.ltb_ge in E.
  assert (Hnb : List.length nb <= EXCEL_MAX_COLUMNS) by (unfold nb; rewrite filter_length_le; lia).
  set (as_str := map (fun v => Py.strip (cell_str v)) nb).
  assert (Has : List.length as_str = List.length nb) by apply length_map.
  rewrite !add_spec, !mul_spec, div_spec. unfold SF64add, SF64mul, SF64div.
  change (Prim2SF 1.5%float) with (S754_finite false 6755399441055744 (-52)).
  change (Prim2SF 2.0%float) with (S754_finite false 4503599627370496 (-51)).
  change (Prim2SF 3.0%float) with (S754_finite false 6755399441055744 (-51)).
  apply SFadd_pos; [apply SFadd_pos|]; apply SFmul_pos.
  - apply float_of_nat_pos.
  - apply float_of_nat_pos.
  - apply SFdiv_pos; [|apply float_of_nat_pos].
    apply float_of_nat_fin_pos. split.
    + apply length_nodup_pos. intros H0. rewrite H0 in Has. simpl in Has. lia.
    + pose proof (length_nodup_le string_dec as_str). lia.
Qed.

(** A row is skipped exactly when fewer than two of its cells are non-blank. *)
Lemma row_score_None (row : list cell) :
  row_score row = None <-> List.length (filter (fun v => negb (_is_blank v)) row) < 2.
Proof.
  unfold row_score. destruct (_ <? 2) eqn:E.
  - apply Nat.ltb_lt in E. tauto.
  - apply Nat.ltb_ge in E. split; [discriminate | lia].
Qed.

Lemma preview_score_pos (preview : list (list cell)) (j : nat) (r : list cell) (s : float) :
  Forall (fun r => List.length r <= EXCEL_MAX_COLUMNS) preview ->
  nth_error preview j = Some r -> row_score r = Some s -> pos_sf (Prim2SF s) = true.
Proof.
  intros Hb Hj Hs. apply (row_score_pos r); [|exact Hs].
  rewrite Forall_forall in Hb. apply Hb. eapply nth_error_In. exact Hj.
Qed.

(** The loop invariant: either [best_i] is kept and no later row scores
    above [best_score], or the result is a later row scoring above
    [best_score], above every row scanned before it and at least as high as
    every row scanned after it. *)
Lemma scan_rows_from_spec (preview : list (list cell)) (i best_i : nat) (best_score : float) :
  Forall (fun r => List.length r <= EXCEL_MAX_COLUMNS) preview ->
  let res := scan_rows_from i preview best_i best_score in
  (res = best_i /\
   forall j r s, nth_error preview j = Some r -> row_score r = Some s ->
     PrimFloat.ltb best_score s = false)
  \/
  (exists r s, i <= res /\ nth_error preview (res - i) = Some r /\ row_score r = Some s /\
     PrimFloat.ltb best_score s = true /\
     forall j r' s', nth_error preview j = Some r' -> row_score r' = Some s' ->
       (i + j < res -> PrimFloat.ltb s' s = true) /\ PrimFloat.ltb s s' = false).
Proof.
  revert i best_i best_score.
  induction preview as [|row rest IH]; intros i bi bs Hb res; subst res; simpl.
  - left. split; [reflexivity|]. intros [|j]; discriminate.
  - inversion Hb as [|? ? Hrow_len Hrest]; subst.
    destruct (row_score row) as [sc|] eqn:Hrow.
    + assert (Hsc : not_nan (Prim2SF sc) = true)
        by exact (pos_sf_not_nan _ (row_score_pos row sc Hrow_len Hrow)).
      destruct (PrimFloat.ltb bs sc) eqn:Hgt.
      * right. destruct (IH (S i) i sc Hrest) as [[-> Hall]|(r & s & Hle & Hnth & Hs & Hgt' & Hall)].
        -- exists row, sc. rewrite Nat.sub_diag.
           split; [lia|]. split; [reflexivity|]. split; [exact Hrow|]. split; [exact Hgt|].
           intros [|j] r' s' Hj Hs'; simpl in Hj.
           ++ injection Hj as <-. rewrite Hrow in Hs'. injection Hs' as <-.
              split; [lia | apply fltb_irrefl].
           ++ split; [lia | exact (Hall j r' s' Hj Hs')].
        -- exists r, s. split; [lia|].
           replace (scan_rows_from (S i) rest i sc - i) with
             (S (scan_rows_from (S i) rest i sc - S i)) by lia.
           assert (Hsn : not_nan (Prim2SF s) = true).
           { apply pos_sf_not_nan. exact (preview_score_pos rest _ r s Hrest Hnth Hs). }
           split; [exact Hnth|]. split; [exact Hs|].
           split; [exact (fltb_trans bs sc s Hsn Hgt Hgt')|].
           intros [|j] r' s' Hj Hs'; simpl in Hj.
           ++ injection Hj as <-. rewrite Hrow in Hs'. injection Hs' as <-.
              split; [intros _; exact Hgt' | apply fltb_asym, Hgt'].
           ++ destruct (Hall j r' s' Hj Hs') as [H1 H2].
              split; [intros Hij; apply H1; lia | exact H2].
      * destruct (IH (S i) bi bs Hrest) as [[-> Hall]|(r & s & Hle' & Hnth & Hs & Hgt' & Hall)].
        -- left. split; [reflexivity|].
           intros [|j] r' s' Hj Hs'; simpl in Hj.
           ++ injection Hj as <-. rewrite Hrow in Hs'. injection Hs' as <-. exact Hgt.
           ++ exact (Hall j r' s' Hj Hs').
        -- right. exists r, s. split; [lia|].
           replace (scan_rows_from (S i) rest bi bs - i) with
             (S (scan_rows_from (S i) rest bi bs - S i)) by lia.
           split; [exact Hnth|]. split; [exact Hs|]. split; [exact Hgt'|].
           assert (Hlt : PrimFloat.ltb sc s = true).
           { destruct (fltb_negtrans bs sc s Hsc Hgt') as [H|H]; [congruence | exact H]. }
           intros [|j] r' s' Hj Hs'; simpl in Hj.
           ++ injection Hj as <-. rewrite Hrow in Hs'. injection Hs' as <-.
              split; [intros _; exact Hlt | apply fltb_asym, Hlt].
           ++ destruct (Hall j r' s' Hj Hs') as [H1 H2].
              split; [intros Hij; apply H1; lia | exact H2].
    + destruct (IH (S i) bi bs Hrest) as [[-> Hall]|(r & s & Hle' & Hnth & Hs & Hgt' & Hall)].
      * left. split; [reflexivity|].
        intros [|j] r' s' Hj Hs'; simpl in Hj.
        -- injection Hj as <-. congruence.
        -- exact (Hall j r' s' Hj Hs').
      * right. exists r, s. split; [lia|].
        replace (scan_rows_from (S i) rest bi bs - i) with
          (S (scan_rows_from (S i) rest bi bs - S i)) by lia.
        split; [exact Hnth|]. split; [exact Hs|]. split; [exact Hgt'|].
        intros [|j] r' s' Hj Hs'; simpl in Hj.
        -- injection Hj as <-. congruence.
        -- destruct (Hall j r' s' Hj Hs') as [H1 H2].
           split; [intros Hij; apply H1; lia | exact H2].
Qed.

Lemma neg_one_ltb_pos (s : float) :
  pos_sf (Prim2SF s) = true -> PrimFloat.ltb (-1)%float s = true.
Proof.
  intros Hs. rewrite ltb_spec.
  change (Prim2SF (-1)%float) with (S754_finite true 4503599627370496 (-52)).
  destruct (Prim2SF s) as [[]|[]| |[] m e]; try discriminate; reflexivity.
Qed.

(** C1 (counterexample). The two rows [tie_row_texts] and [tie_row_numbers]
    have the same score in exact arithmetic, so the specification's rule
    (ties keep the first row) picks row 0; but in floating point the first
    scores 22.928571428571427 ([0x1.6edb6db6db6dbp+4]) and the second
    22.92857142857143 ([0x1.6edb6db6db6dcp+4]), one unit in the last place
    more, and
    [detect_header_row] returns 1. *)
Lemma detect_header_row_float_tie :
  (exists a b, spec_row_score tie_row_texts = Some a /\
               spec_row_score tie_row_numbers = Some b /\ (a == b)%Q) /\
  row_score tie_row_texts = Some 0x1.6edb6db6db6dbp+4%float /\
  row_score tie_row_numbers = Some 0x1.6edb6db6db6dcp+4%float /\
  PrimFloat.ltb 0x1.6edb6db6db6dbp+4%float 0x1.6edb6db6db6dcp+4%float = true /\
  detect_header_row [tie_row_texts; tie_row_numbers] 80 = 1.
Proof.
  split.
  - eexists _, _. split; [reflexivity|]. split; [reflexivity|]. vm_compute. reflexivity.
  - repeat split; vm_compute; reflexivity.
Qed.

(** C1 (as the code behaves). [detect_header_row] skips exactly the
    preview rows with fewer than two non-blank cells and scores the others
    by [row_score], in double precision:
    [(float(n) * 1.5 + float(t) * 2.0) + (float(u) / float(n)) * 3.0] for [n]
    non-blank cells, [t] of them text, with [u] distinct stripped texts.  On
    a sheet whose rows have at most 16384 cells (Excel's column limit), it
    returns the first row of the [scan_rows]-row window whose float score
    is the highest: every earlier scored row scores strictly less (in float
    comparison) and no row scores more; it returns 0 when no row qualifies.
    On the example of the specification it returns 1. *)
Theorem detect_header_row_spec :
  (forall row, row_score row = None <->
     List.length (filter (fun v => negb (_is_blank v)) row) < 2) /\
  (forall (sheet : list (list cell)) (scan_rows : nat),
     let preview := firstn scan_rows sheet in
     Forall (fun r => List.length r <= EXCEL_MAX_COLUMNS) preview ->
     let i := detect_header_row sheet scan_rows in
     ((forall j r, nth_error preview j = Some r -> row_score r = None) /\ i = 0)
     \/
     (exists r s, nth_error preview i = Some r /\ row_score r = Some s /\
        forall j r' s', nth_error preview j = Some r' -> row_score r' = Some s' ->
          (j < i -> PrimFloat.ltb s' s = true) /\ PrimFloat.ltb s s' = false)) /\
  detect_header_row header_example 80 = 1.
Proof.
  split; [exact row_score_None|]. split; [|reflexivity].
  intros sheet scan_rows preview Hb i.
  destruct (scan_rows_from_spec preview 0 0 (-1)%float Hb)
    as [[Hi Hall]|(r & s & _ & Hnth & Hs & _ & Hall)].
  - left. split; [|exact Hi].
    intros j r Hj. destruct (row_score r) as [s|] eqn:Hs; [|reflexivity].
    exfalso. pose proof (Hall j r s Hj Hs) as H.
    rewrite (neg_one_ltb_pos s (preview_score_pos preview j r s Hb Hj Hs)) in H.
    discriminate.
  - right. exists r, s. rewrite Nat.sub_0_r in Hnth.
    split; [exact Hnth|]. split; [exact Hs|]. exact Hall.
Qed.

Lemma detect_header_row_spec_witness :
  nth_error (firstn 80 header_example) 1 = Some [VStr "Name"; VStr "Date"; VStr "Status"] /\
  row_score [VStr "Name"; VStr "Date"; VStr "Status"] = Some 13.5%float /\
  ((forall j r, nth_error (firstn 80 header_example) j = Some r -> row_score r = None)
   \/ exists r s, nth_error (firstn 80 header_example) (detect_header_row header_example 80) = Some r
        /\ row_score r = Some s).
Proof.
  split; [reflexivity|]. split; [reflexivity|].
  assert (Hb : Forall (fun r => List.length r <= EXCEL_MAX_COLUMNS) (firstn 80 header_example)).
  { apply Forall_forall. intros r Hr. simpl in Hr.
    repeat destruct Hr as [<-|Hr]; try (apply Nat.leb_le; vm_compute; reflexivity).
    contradiction. }
  destruct (proj1 (proj2 detect_header_row_spec) header_example 80 Hb)
    as [[H _]|(r & s & H1 & H2 & _)].
  - left. exact H.
  - right. exists r, s. split; [exact H1 | exact H2].
Defined.

(** ** Reading and writing columns *)

Lemma set_col_eq (df : frame) (c : string) (g : list cell -> cell) :
  set_col df c g =
  mkFrame (set_cols (columns df) c) (map (fun r => set_row (columns df) c (g r) r) (rows df)).
Proof. unfold set_col, set_cols, set_row. destruct (col_index c (columns df)); reflexivity. Qed.

Lemma col_index_spec (c : string) (cols : list string) (i : nat) :
  col_index c cols = Some i -> i < List.length cols /\ nth i cols "" = c.
Proof.
  revert i. induction cols as [|x cols IH]; simpl; [discriminate|].
  intros i. destruct (String.eqb x c) eqn:E.
  - intros [= <-]. apply String.eqb_eq in E. split; [lia | exact E].
  - destruct (col_index c cols) as [k|]; simpl; [|discriminate].
    intros [= <-]. destruct (IH k eq_refl). split; [lia | assumption].
Qed.

Lemma col_index_None (c : string) (cols : list string) :
  col_index c cols = None <-> ~ In c cols.
Proof.
  induction cols as [|x cols IH]; simpl; [tauto|].
  destruct (String.eqb x c) eqn:E.
  - apply String.eqb_eq in E. split; [discriminate | tauto].
  - apply String.eqb_neq in E. destruct (col_index c cols); simpl; split.
    + discriminate.
    + intros H. exfalso. assert (Hn : ~ In c cols) by tauto. apply IH in Hn. discriminate.
    + intros _ [H|H]; [congruence|]. revert H. apply IH. reflexivity.
    + reflexivity.
Qed.

Lemma has_col_spec (c : string) (cols : list string) : has_col c cols = true <-> In c cols.
Proof.
  unfold has_col. destruct (col_index c cols) eqn:E.
  - apply col_index_spec in E as [Hl Hn]. split; [intros _ | reflexivity].
    rewrite <- Hn. apply nth_In. exact Hl.
  - apply col_index_None in E. split; [discriminate | contradiction].
Qed.

Lemma col_index_app (c x : string) (cols : list string) :
  col_index c (cols ++ [x])%list =
  match col_index c cols with
  | Some i => Some i
  | None => if String.eqb x c then Some (List.length cols) else None
  end.
Proof.
  induction cols as [|y cols IH]; simpl.
  - destruct (String.eqb x c); reflexivity.
  - destruct (String.eqb y c); [reflexivity|]. rewrite IH.
    destruct (col_index c cols); [reflexivity|]. destruct (String.eqb x c); reflexivity.
Qed.

Lemma length_list_set {A} (i : nat) (v : A) (l : list A) :
  List.length (list_set i v l) = List.length l.
Proof. revert i. induction l as [|x l IH]; intros [|i]; simpl; auto. Qed.

Lemma nth_list_set_same {A} (i : nat) (v d : A) (l : list A) :
  i < List.length l -> nth i (list_set i v l) d = v.
Proof.
  revert i. induction l as [|x l IH]; intros [|i]; simpl; try lia; auto.
  intros H. apply IH. lia.
Qed.

Lemma nth_list_set_other {A} (i j : nat) (v d : A) (l : list A) :
  i <> j -> nth j (list_set i v l) d = nth j l d.
Proof.
  revert i j. induction l as [|x l IH]; intros [|i] [|j] H; simpl; try lia;
    auto; try (apply IH; lia).
Qed.

Lemma length_set_row (cols : list string) (c : string) (v : cell) (r : list cell) :
  List.length r = List.length cols ->
  List.length (set_row cols c v r) = List.length (set_cols cols c).
Proof.
  unfold set_row, set_cols. destruct (col_index c cols).
  - rewrite length_list_set. auto.
  - rewrite !length_app. simpl. lia.
Qed.

Lemma get_set_row_same (cols : list string) (c : string) (v : cell) (r : list cell) :
  List.length r = List.length cols ->
  get_cell (set_cols cols c) (set_row cols c v r) c = v.
Proof.
  intros Hr. unfold get_cell, set_row, set_cols.
  destruct (col_index c cols) as [i|] eqn:E.
  - rewrite E. apply nth_list_set_same. apply col_index_spec in E. lia.
  - rewrite col_index_app, E, String.eqb_refl.
    rewrite app_nth2 by lia. rewrite Hr, Nat.sub_diag. reflexivity.
Qed.

Lemma get_set_row_other (cols : list string) (c c' : string) (v : cell) (r : list cell) :
  List.length r = List.length cols -> c' <> c ->
  get_cell (set_cols cols c) (set_row cols c v r) c' = get_cell cols r c'.
Proof.
  intros Hr Hne. unfold get_cell, set_row, set_cols.
  destruct (col_index c cols) as [i|] eqn:E.
  - destruct (col_index c' cols) as [j|] eqn:E'; [|reflexivity].
    apply nth_list_set_other. intros <-.
    apply col_index_spec in E as [_ E]. apply col_index_spec in E' as [_ E']. congruence.
  - rewrite col_index_app.
    destruct (col_index c' cols) as [j|] eqn:E'.
    + apply col_index_spec in E' as [Hj _]. apply app_nth1. lia.
    + destruct (String.eqb c c') eqn:Ec; [apply String.eqb_eq in Ec; congruence | reflexivity].
Qed.

Lemma set_cols_incl (cols : list string) (c x : string) :
  In x cols -> In x (set_cols cols c).
Proof. unfold set_cols. destruct (col_index c cols); [auto | intros; apply in_or_app; auto]. Qed.

Lemma In_set_cols (cols : list string) (c : string) : In c (set_cols cols c).
Proof.
  unfold set_cols. destruct (col_index c cols) as [i|] eqn:E.
  - apply col_index_spec in E as [Hl Hn]. rewrite <- Hn. apply nth_In. exact Hl.
  - apply in_or_app. right. left. reflexivity.
Qed.

Lemma filter_all_false {A} (p : A -> bool) (l : list A) :
  (forall x, In x l -> p x = false) -> filter p l = [].
Proof.
  induction l as [|x l IH]; simpl; intros H; [reflexivity|].
  rewrite (H x (or_introl eq_refl)). apply IH. auto.
Qed.

(** ** C10: no Priority column *)

(** C10. When the frame has the status column but no "Priority" column,
    both [filter_not_closed] and [filter_closed] return an empty frame:
    "Priority" is filled with [None] and [dropna] removes every row. *)
Theorem split_without_priority_empty (df : frame) (status_col : string) :
  well_formed df -> In status_col (columns df) -> ~ In "Priority" (columns df) ->
  exists dn dc,
    filter_not_closed df status_col = inr dn /\ rows dn = [] /\
    filter_closed df status_col = inr dc /\ rows dc = [].
Proof.
  intros Hwf Hsc Hp.
  assert (Hne : status_col <> "Priority") by (intros ->; contradiction).
  assert (Hsc' : has_col status_col (columns df) = true) by (apply has_col_spec; exact Hsc).
  assert (Hp' : has_col "Priority" (columns df) = false)
    by (destruct (has_col "Priority" (columns df)) eqn:E; [apply has_col_spec in E; contradiction | reflexivity]).
  assert (Hprep : has_col status_col (columns (_prep_common df status_col)) = true /\
                  rows (_prep_common df status_col) = []).
  { unfold _prep_common. rewrite Hsc', Hp'. cbv zeta. simpl negb. cbv iota.
    set (d1 := set_col df "Priority" (fun _ => VNone)).
    set (d2 := set_col d1 status_col _).
    assert (Hcore : forall g3,
      has_col status_col (columns (dropna_subset (set_col d2 "Assigned To" g3) ["Priority"; status_col])) = true /\
      rows (dropna_subset (set_col d2 "Assigned To" g3) ["Priority"; status_col]) = []).
    { intros g3. unfold d2, d1, dropna_subset. rewrite !set_col_eq. simpl columns. simpl rows.
      split.
      - apply has_col_spec. apply set_cols_incl, In_set_cols.
      - apply filter_all_false. intros x Hx.
        apply in_map_iff in Hx as (r2 & <- & Hx).
        apply in_map_iff in Hx as (r1 & <- & Hx).
        apply in_map_iff in Hx as (r & <- & Hx).
        unfold well_formed in Hwf. rewrite Forall_forall in Hwf. pose proof (Hwf r Hx) as Hr.
        simpl forallb.
        rewrite get_set_row_other; [| |discriminate].
        2:{ apply length_set_row. apply length_set_row. exact Hr. }
        rewrite get_set_row_other; [| |exact (not_eq_sym Hne)].
        2:{ apply length_set_row. exact Hr. }
        rewrite get_set_row_same by exact Hr. reflexivity. }
    destruct (has_col "Assigned To" (columns d2)); apply Hcore. }
  destruct Hprep as [Hc Hr].
  unfold filter_not_closed, filter_closed, mask_by_col. rewrite Hc, Hr. simpl.
  eexists _, _. split; [reflexivity|]. split; [reflexivity|].
  split; reflexivity.
Qed.

Lemma split_without_priority_empty_witness :
  exists dn dc,
    filter_not_closed (mkFrame ["Status"; "Assigned To"] [[VStr "Open"; VStr "Ann"]; [VStr "Closed"; VNone]]) "Status" = inr dn
    /\ rows dn = [] /\
    filter_closed (mkFrame ["Status"; "Assigned To"] [[VStr "Open"; VStr "Ann"]; [VStr "Closed"; VNone]]) "Status" = inr dc
    /\ rows dc = [].
Proof.
  apply split_without_priority_empty.
  - repeat constructor.
  - simpl. left. reflexivity.
  - simpl. intros [H|[H|[]]]; discriminate H.
Defined.

(** ** Splitting by status *)

(** On a frame without the status column, [_prep_common] returns
    [df.iloc[0:0]], which still lacks the column, and both filters then
    raise [KeyError] when they index it. *)
Lemma split_missing_status_col_raises (df : frame) (status_col : string) :
  ~ In status_col (columns df) ->
  filter_not_closed df status_col = inl (KeyError status_col) /\
  filter_closed df status_col = inl (KeyError status_col).
Proof.
  intros H.
  assert (Hf : has_col status_col (columns df) = false)
    by (destruct (has_col status_col (columns df)) eqn:E; [apply has_col_spec in E; contradiction | reflexivity]).
  unfold filter_not_closed, filter_closed, mask_by_col, _prep_common.
  rewrite Hf. simpl. rewrite Hf. split; reflexivity.
Qed.

(** With the status column present, [_prep_common] keeps it and drops rows
    only. *)
Lemma prep_common_keeps_status_col (df : frame) (status_col : string) :
  In status_col (columns df) ->
  has_col status_col (columns (_prep_common df status_col)) = true /\
  List.length (rows (_prep_common df status_col)) <= List.length (rows df).
Proof.
  intros Hsc.
  assert (Hsc' : has_col status_col (columns df) = true) by (apply has_col_spec; exact Hsc).
  unfold _prep_common. rewrite Hsc'. cbv zeta. simpl negb. cbv iota.
  assert (Hcore : forall g1 g2 g3,
    has_col status_col (columns (dropna_subset
      (set_col (set_col (set_col df "Priority" g1) status_col g2) "Assigned To" g3)
      ["Priority"; status_col])) = true /\
    List.length (rows (dropna_subset
      (set_col (set_col (set_col df "Priority" g1) status_col g2) "Assigned To" g3)
      ["Priority"; status_col])) <= List.length (rows df)).
  { intros g1 g2 g3. unfold dropna_subset. rewrite !set_col_eq. simpl columns. simpl rows.
    split.
    - apply has_col_spec. apply set_cols_incl, In_set_cols.
    - etransitivity; [apply filter_length_le|]. rewrite !length_map. reflexivity. }
  destruct (has_col "Priority" (columns df));
  match goal with
  | |- context [has_col "Assigned To" ?cs] => destruct (has_col "Assigned To" cs)
  end; apply Hcore.
Qed.

(** With the status column present, the two filters split the prepared
    rows: every row goes to exactly one side and the sizes add up. *)
Lemma split_by_status_partition (df : frame) (status_col : string) :
  In status_col (columns df) ->
  let d := _prep_common df status_col in
  exists dn dc,
    filter_not_closed df status_col = inr dn /\ filter_closed df status_col = inr dc /\
    (forall r, In r (rows d) ->
       (In r (rows dn) /\ ~ In r (rows dc)) \/ (~ In r (rows dn) /\ In r (rows dc))) /\
    List.length (rows dn) + List.length (rows dc) = List.length (rows d) /\
    List.length (rows d) <= List.length (rows df).
Proof.
  intros Hsc. cbv zeta. destruct (prep_common_keeps_status_col df status_col Hsc) as [Hc Hle].
  unfold filter_not_closed, filter_closed, mask_by_col. rewrite Hc.
  eexists _, _. split; [reflexivity|]. split; [reflexivity|]. simpl rows.
  split; [|split; [|exact Hle]].
  - intros r Hr. rewrite !filter_In.
    destruct (eq_closed _); simpl; intuition discriminate.
  - clear Hle Hc. induction (rows _) as [|x l IH]; simpl; [reflexivity|].
    destruct (eq_closed _); simpl; lia.
Qed.

(** C8 (evaluation at the failing input). On a frame with a "Priority"
    column but no "Status" column, both subsets of the split raise
    [KeyError 'Status'] instead of being empty. *)
Theorem split_missing_status_keyerror :
  filter_not_closed (mkFrame ["Priority"] [[VStr "High"]]) "Status" = inl (KeyError "Status") /\
  filter_closed (mkFrame ["Priority"] [[VStr "High"]]) "Status" = inl (KeyError "Status").
Proof. split; reflexivity. Qed.

(** C3 (evaluation at the failing input). A "Work Orders" sheet whose status
    column "General Status" is missing: neither subset exists, both filters
    raise [KeyError], so the two subsets do not partition the frame. *)
Theorem work_orders_split_keyerror :
  let df := mkFrame ["Priority"; "Status"; "Assigned To"]
              [[VStr "High"; VStr "Open"; VStr "Ann"]; [VStr "Low"; VStr "Closed"; VStr "Bob"]] in
  filter_not_closed df "General Status" = inl (KeyError "General Status") /\
  filter_closed df "General Status" = inl (KeyError "General Status").
Proof. split; reflexivity. Qed.

(** ** Stripping is idempotent *)

Lemma lstrip_head_ok (l : list ascii) : head_ok (Py.lstrip_list l).
Proof.
  induction l as [|c l IH]; simpl; [exact I|].
  destruct (Py.is_space c) eqn:E; [exact IH | exact E].
Qed.

Lemma lstrip_id (l : list ascii) : head_ok l -> Py.lstrip_list l = l.
Proof. destruct l as [|c l]; simpl; [reflexivity|]. intros ->. reflexivity. Qed.

Lemma lstrip_skipn (l : list ascii) : exists k, Py.lstrip_list l = skipn k l.
Proof.
  induction l as [|c l [k IH]]; simpl; [exists 0; reflexivity|].
  destruct (Py.is_space c); [exists (S k); exact IH | exists 0; reflexivity].
Qed.

Lemma head_ok_firstn (n : nat) (l : list ascii) : head_ok l -> head_ok (firstn n l).
Proof. destruct n, l; simpl; auto. Qed.

Lemma strip_idem (s : string) : Py.strip (Py.strip s) = Py.strip s.
Proof.
  unfold Py.strip. rewrite list_ascii_of_string_of_list_ascii. f_equal.
  set (A := Py.lstrip_list (list_ascii_of_string s)).
  assert (HA : head_ok A) by apply lstrip_head_ok.
  destruct (lstrip_skipn (rev A)) as [k Hk].
  assert (HB : head_ok (rev (Py.lstrip_list (rev A)))).
  { rewrite Hk, skipn_rev, rev_involutive. apply head_ok_firstn. exact HA. }
  rewrite (lstrip_id _ HB), rev_involutive.
  rewrite (lstrip_id _ (lstrip_head_ok (rev A))). reflexivity.
Qed.

(** ** C6: reading a sheet with the detected header *)

(** C6 (counterexample). A "Notes" column holding only whitespace is blank
    by [_is_blank] but is not missing for pandas, so it survives
    [dropna(how="all")] after the header row detected by
    [detect_header_row]. *)
Lemma read_sheet_keeps_blank_column :
  detect_header_row banks_sheet_example 80 = 0 /\
  ~ no_blank_lines (read_sheet_with_detected_header banks_sheet_example
                      (detect_header_row banks_sheet_example 80)).
Proof.
  split; [reflexivity|].
  assert (E : read_sheet_with_detected_header banks_sheet_example
                (detect_header_row banks_sheet_example 80) =
              mkFrame ["Bank"; "Notes"] [[VStr "TD"; VStr "  "]]) by reflexivity.
  rewrite E. intros (_ & H & _).
  destruct (H 1) as (r & Hr & Hb); [simpl; lia|].
  simpl in Hr. destruct Hr as [<-|[]]. discriminate Hb.
Qed.

(** C6 (as the code behaves). After [read_sheet_with_detected_header], no
    row has only missing cells and no column has only missing data cells,
    where missing is pandas' NA (None, or NaN, including the strings pandas
    reads as NaN); all column labels are stripped. *)
Theorem read_sheet_no_na_lines (sheet : list (list cell)) (header_row : nat) :
  no_na_lines (read_sheet_with_detected_header sheet header_row).
Proof.
  unfold read_sheet_with_detected_header.
  generalize (read_excel_with_header sheet header_row) as f0. intros f0.
  unfold dropna_rows_all, dropna_cols_all. simpl.
  set (keep := filter _ (seq 0 (List.length (columns f0)))).
  repeat split.
  - intros r Hr. apply filter_In in Hr as [_ Hr].
    apply existsb_exists in Hr as (v & Hv & Hna). exists v. split; [exact Hv|].
    apply negb_true_iff. exact Hna.
  - intros j Hj. cbn [columns rows] in *. rewrite !length_map in Hj.
    assert (Hk : In (nth j keep 0) keep) by (apply nth_In; exact Hj).
    pose proof Hk as Hk'. unfold keep at 2 in Hk'. apply filter_In in Hk' as [_ Hex].
    apply existsb_exists in Hex as (r0 & Hr0 & Hna).
    set (g := fun k => nth k r0 VNone).
    assert (Hnth : nth j (map g keep) VNone = nth (nth j keep 0) r0 VNone).
    { rewrite (nth_indep _ _ (g 0)) by (rewrite length_map; exact Hj).
      apply map_nth. }
    exists (map g keep). split.
    + apply filter_In. split.
      * apply in_map_iff. exists r0. split; [reflexivity | exact Hr0].
      * apply existsb_exists. exists (nth j (map g keep) VNone). split.
        -- apply nth_In. rewrite length_map. exact Hj.
        -- rewrite Hnth. exact Hna.
    + rewrite Hnth. apply negb_true_iff. exact Hna.
  - apply Forall_forall. intros c Hc. apply in_map_iff in Hc as (c' & <- & _).
    apply strip_idem.
Qed.

(** ** C7: group counts *)

Lemma total_count_bump {K} (eqb : K -> K -> bool) (k : K) (acc : list (K * nat)) :
  total_count (bump eqb k acc) = S (total_count acc).
Proof.
  induction acc as [|[k' n] acc IH]; [reflexivity|]. simpl bump.
  destruct (eqb k' k); unfold total_count in *; simpl in *; [reflexivity|].
  rewrite IH. lia.
Qed.

Lemma total_count_group_count {K} (eqb : K -> K -> bool) (keys : list K) :
  total_count (group_count eqb keys) = List.length keys.
Proof.
  unfold group_count.
  assert (H : forall acc, total_count (fold_left (fun acc k => bump eqb k acc) keys acc)
                          = total_count acc + List.length keys).
  { induction keys as [|k keys IH]; intros acc; simpl; [lia|].
    rewrite IH, total_count_bump. lia. }
  rewrite H. reflexivity.
Qed.

Lemma forallb_map_cells (f : string -> cell) (by_ : list string) :
  forallb (fun v => negb (is_na v)) (map f by_) = forallb (fun c => negb (is_na (f c))) by_.
Proof. induction by_ as [|c by_ IH]; simpl; [reflexivity|]. rewrite IH. reflexivity. Qed.

Lemma filter_all_true {A} (p : A -> bool) (l : list A) :
  (forall x, In x l -> p x = true) -> filter p l = l.
Proof.
  induction l as [|x l IH]; simpl; intros H; [reflexivity|].
  rewrite (H x (or_introl eq_refl)), IH; auto.
Qed.

(** The group sizes of [groupby] add up to the number of rows whose key
    cells are all present. *)
Lemma groupby_size_total (df : frame) (by_ : list string) :
  total_count (groupby_size df by_) =
  List.length (filter (fun r => forallb (fun c => negb (is_na (get_cell (columns df) r c))) by_)
                      (rows df)).
Proof.
  unfold groupby_size. rewrite total_count_group_count.
  induction (rows df) as [|r l IH]; simpl; [reflexivity|].
  rewrite forallb_map_cells. destruct (forallb _ by_); simpl; rewrite IH; reflexivity.
Qed.

Lemma dropna_subset_present (X : frame) (cs : list string) (r : list cell) (c : string) :
  In r (rows (dropna_subset X cs)) -> In c cs ->
  is_na (get_cell (columns (dropna_subset X cs)) r c) = false.
Proof.
  simpl. intros Hr Hc. apply filter_In in Hr as [_ Hr].
  rewrite forallb_forall in Hr. apply negb_true_iff. exact (Hr c Hc).
Qed.

(** Every row [_prep_common] keeps has a Priority and a status. *)
Lemma prep_common_present (df : frame) (status_col : string) (r : list cell) (c : string) :
  In r (rows (_prep_common df status_col)) -> In c ["Priority"; status_col] ->
  is_na (get_cell (columns (_prep_common df status_col)) r c) = false.
Proof.
  unfold _prep_common. destruct (negb _); [simpl; contradiction|].
  apply dropna_subset_present.
Qed.

(** C7 (as the code behaves). On the not-closed subset, the
    Priority x Status counts add up to the number of rows; the
    Assignee x Priority counts add up to the number of rows whose
    "Assigned To" and "Priority" are both present. *)
Theorem group_counts_total :
  (forall df status_col d, filter_not_closed df status_col = inr d -> rows d <> [] ->
     exists g, open_stacked_chart d status_col = Some g /\
               total_count g = List.length (rows d)) /\
  (forall df_all, rows df_all <> [] ->
     exists g, assigned_to_bars_stacked_by_priority df_all = Some g /\
       total_count g =
       List.length (filter (fun r => negb (is_na (get_cell (columns df_all) r "Assigned To"))
                                     && negb (is_na (get_cell (columns df_all) r "Priority")))
                           (rows df_all))).
Proof.
  split.
  - intros df sc d Hd Hne. unfold open_stacked_chart.
    destruct (rows d) as [|r0 l] eqn:Er; [contradiction|]. rewrite <- Er.
    eexists. split; [reflexivity|]. rewrite groupby_size_total.
    unfold filter_not_closed, mask_by_col in Hd.
    destruct (has_col sc _); [|discriminate]. injection Hd as <-. simpl.
    rewrite filter_all_true; [reflexivity|].
    intros r Hr. apply filter_In in Hr as [Hr _]. simpl.
    rewrite (prep_common_present df sc r "Priority" Hr (or_introl eq_refl)).
    rewrite (prep_common_present df sc r sc Hr (or_intror (or_introl eq_refl))).
    reflexivity.
  - intros df Hne. unfold assigned_to_bars_stacked_by_priority.
    destruct (rows df) as [|r0 l] eqn:Er; [contradiction|]. rewrite <- Er.
    eexists. split; [reflexivity|]. rewrite groupby_size_total. simpl.
    f_equal. apply filter_ext. intros r. rewrite andb_true_r. reflexivity.
Qed.

Lemma group_counts_total_witness :
  exists g,
    open_stacked_chart (mkFrame ["Priority"; "Status"; "Assigned To"]
                          [[VStr "High"; VStr "Open"; VStr "Ann"]]) "Status" = Some g /\
    total_count g = 1.
Proof.
  apply (proj1 group_counts_total
           (mkFrame ["Priority"; "Status"; "Assigned To"]
              [[VStr "High"; VStr "Open"; VStr "Ann"]; [VStr "low "; VStr "Closed - done"; VNaN]])
           "Status").
  - reflexivity.
  - discriminate.
Defined.

(** C7 (counterexample). An open ticket whose "Assigned To" is blank is in
    the not-closed subset and in the input of the assignee chart, but
    [groupby] drops its null key: the group counts add up to 0 for 1 row. *)
Lemma assignee_counts_drop_null_rows :
  exists d, filter_not_closed ticket_blank_assignee "Status" = inr d /\
    List.length (open_assignee_part d) = 1 /\
    exists g, assigned_to_bars_stacked_by_priority
                (mkFrame ["Assigned To"; "Priority"] (open_assignee_part d)) = Some g /\
      total_count g = 0 /\ total_count g <> List.length (open_assignee_part d).
Proof.
  eexists. split; [reflexivity|]. split; [reflexivity|].
  eexists. split; [reflexivity|]. split; [reflexivity|]. discriminate.
Qed.

(** ** C9: monthly trend *)

Section GroupCountFacts.

Context {K : Type} (eqb : K -> K -> bool).
Hypothesis eqb_spec : forall a b, eqb a b = true <-> a = b.

Lemma groups_of_bump (m k : K) (acc : list (K * nat)) :
  groups_of eqb m (bump eqb k acc) =
  if eqb k m then bump eqb k (groups_of eqb m acc) else groups_of eqb m acc.
Proof.
  unfold groups_of. induction acc as [|[k' n] acc IH]; simpl.
  - destruct (eqb k m); reflexivity.
  - destruct (eqb k' k) eqn:Ek'k.
    + apply eqb_spec in Ek'k. subst k'. simpl.
      destruct (eqb k m) eqn:Ekm; simpl; [rewrite (proj2 (eqb_spec k k) eq_refl)|]; reflexivity.
    + simpl. rewrite IH. destruct (eqb k' m) eqn:Ek'm.
      * apply eqb_spec in Ek'm. subst m.
        destruct (eqb k k') eqn:Ekk'.
        -- apply eqb_spec in Ekk'. subst. rewrite (proj2 (eqb_spec k' k') eq_refl) in Ek'k.
           discriminate.
        -- simpl. rewrite ?(proj2 (eqb_spec k' k') eq_refl). reflexivity.
      * destruct (eqb k m); reflexivity.
Qed.

Lemma groups_of_group_count (m : K) (keys : list K) :
  groups_of eqb m (group_count eqb keys) =
  if count_key eqb m keys =? 0 then [] else [(m, count_key eqb m keys)].
Proof.
  unfold group_count.
  assert (H : forall acc c0,
    groups_of eqb m acc = (if c0 =? 0 then [] else [(m, c0)]) ->
    groups_of eqb m (fold_left (fun acc k => bump eqb k acc) keys acc) =
    (if c0 + count_key eqb m keys =? 0 then [] else [(m, c0 + count_key eqb m keys)])).
  { induction keys as [|k keys IH]; intros acc c0 Hacc; simpl.
    - rewrite Nat.add_0_r. exact Hacc.
    - unfold count_key. simpl. destruct (eqb k m) eqn:Ekm; simpl.
      + replace (c0 + S (List.length (filter (fun k0 => eqb k0 m) keys)))
          with (S c0 + count_key eqb m keys) by (unfold count_key; lia).
        apply IH. rewrite groups_of_bump, Ekm, Hacc.
        apply eqb_spec in Ekm. subst k.
        destruct c0; simpl; [reflexivity|].
        rewrite (proj2 (eqb_spec m m) eq_refl). reflexivity.
      + apply IH. rewrite groups_of_bump, Ekm. exact Hacc. }
  apply (H [] 0). reflexivity.
Qed.

End GroupCountFacts.

Lemma datetime_eqb_spec (a b : datetime) : datetime_eqb a b = true <-> a = b.
Proof.
  destruct a as [y1 m1 d1 s1], b as [y2 m2 d2 s2]. unfold datetime_eqb. simpl.
  rewrite !andb_true_iff, Z.eqb_eq, !Nat.eqb_eq. split.
  - intros [[[-> ->] ->] ->]. reflexivity.
  - intros [= -> -> -> ->]. tauto.
Qed.

Lemma filter_flat_map {A B} (p : B -> bool) (f : A -> list B) (l : list A) :
  filter p (flat_map f l) = flat_map (fun x => filter p (f x)) l.
Proof.
  induction l as [|x l IH]; simpl; [reflexivity|]. rewrite filter_app, IH. reflexivity.
Qed.

Lemma get_cell_absent (cols : list string) (r : list cell) (c : string) :
  has_col c cols = false -> get_cell cols r c = VNone.
Proof. unfold has_col, get_cell. destruct (col_index c cols); [discriminate | reflexivity]. Qed.

Section TrendFacts.

Variable to_datetime : cell -> option datetime.
(** [pd.to_datetime(None, errors="coerce")] is [NaT]. *)
Hypothesis to_datetime_None : to_datetime VNone = None.

Lemma tag_filter (name : string) (m : datetime) (g : list (datetime * nat)) :
  filter (fun e => String.eqb (snd e) name && datetime_eqb (fst (fst e)) m)
         (map (fun '(m', c) => (m', c, name)) g) =
  map (fun '(m', c) => (m', c, name)) (groups_of datetime_eqb m g).
Proof.
  unfold groups_of. induction g as [|[m' c] g IH]; simpl; [reflexivity|].
  rewrite String.eqb_refl. simpl. destruct (datetime_eqb m' m); simpl; rewrite IH; reflexivity.
Qed.

Lemma count_key_month_counts (df : frame) (m : datetime) :
  count_key datetime_eqb m
    (map month_start
       (flat_map (fun o => match o with Some d => [d] | None => [] end)
          (map (fun r => to_datetime (get_cell (columns df) r DATE_COL)) (rows df)))) =
  rows_in_month to_datetime df m.
Proof.
  unfold count_key, rows_in_month.
  induction (rows df) as [|r l IH]; simpl; [reflexivity|].
  destruct (to_datetime (get_cell (columns df) r DATE_COL)) as [d|]; simpl;
    [destruct (datetime_eqb (month_start d) m); simpl|]; auto.
Qed.

Lemma sheet_trend_entries (name : string) (df : frame) (m : datetime) :
  filter (fun e => String.eqb (snd e) name && datetime_eqb (fst (fst e)) m)
    (if has_col DATE_COL (columns df)
     then map (fun '(m', c) => (m', c, name)) (month_counts to_datetime df) else []) =
  if rows_in_month to_datetime df m =? 0 then [] else [(m, rows_in_month to_datetime df m, name)].
Proof.
  destruct (has_col DATE_COL (columns df)) eqn:Hc.
  - rewrite tag_filter. unfold month_counts.
    rewrite (groups_of_group_count datetime_eqb datetime_eqb_spec).
    rewrite count_key_month_counts.
    destruct (rows_in_month to_datetime df m =? 0); reflexivity.
  - replace (rows_in_month to_datetime df m) with 0; [reflexivity|].
    unfold rows_in_month. rewrite filter_all_false; [reflexivity|].
    intros r _. rewrite (get_cell_absent _ _ _ Hc), to_datetime_None. reflexivity.
Qed.

Lemma other_sheets_trend_entries (name : string) (m : datetime) (data : list (string * frame)) :
  ~ In name (map fst data) ->
  flat_map (fun x => filter (fun e => String.eqb (snd e) name && datetime_eqb (fst (fst e)) m)
                      (let '(n, df) := x in
                       if has_col DATE_COL (columns df)
                       then map (fun '(m', c) => (m', c, n)) (month_counts to_datetime df) else []))
           data = [].
Proof.
  induction data as [|[n df] data IH]; simpl; [reflexivity|].
  intros Hn. rewrite IH by tauto. rewrite app_nil_r.
  apply filter_all_false. intros e He.
  destruct (has_col DATE_COL (columns df)); [|contradiction].
  apply in_map_iff in He as ([m' c] & <- & _). simpl.
  destruct (String.eqb n name) eqn:E; [apply String.eqb_eq in E; tauto | reflexivity].
Qed.

(** C9. In [monthly_trend_chart], for every sheet of the (duplicate-free)
    dictionary and every month [m], the trend table has one row for the
    sheet and [m] whose count is the number of the sheet's rows whose date
    parses into month [m] (truncated to the first of the month), and no row
    when there is none: rows with a missing or unparseable date, and all
    rows of a sheet without the date column, are counted nowhere. *)
Theorem monthly_trend_counts (data : list (string * frame)) (name : string) (df : frame)
    (m : datetime) :
  NoDup (map fst data) -> In (name, df) data ->
  trend_entries name m (monthly_trend_rows to_datetime data) =
  if rows_in_month to_datetime df m =? 0 then []
  else [(m, rows_in_month to_datetime df m, name)].
Proof.
  intros Hnd Hin. unfold trend_entries, monthly_trend_rows. rewrite filter_flat_map.
  induction data as [|[n d] data IH]; simpl in *; [contradiction|].
  inversion Hnd as [|? ? Hn Hnd']; subst.
  destruct Hin as [[= -> ->]|Hin].
  - rewrite other_sheets_trend_entries by exact Hn. rewrite app_nil_r.
    apply sheet_trend_entries.
  - assert (Hne : n <> name) by (intros ->; apply Hn; apply (in_map fst _ _ Hin)).
    rewrite (IH Hnd' Hin).
    rewrite filter_all_false; [reflexivity|].
    intros e He. destruct (has_col DATE_COL (columns d)); [|contradiction].
    apply in_map_iff in He as ([m' c] & <- & _). simpl.
    destruct (String.eqb n name) eqn:E; [apply String.eqb_eq in E; contradiction | reflexivity].
Qed.

End TrendFacts.

Lemma monthly_trend_counts_witness :
  trend_entries "Work Orders" (mkDatetime 2024 3 1 0)
    (monthly_trend_rows example_to_datetime trend_example)
  = [(mkDatetime 2024 3 1 0, 2, "Work Orders")].
Proof.
  rewrite (monthly_trend_counts example_to_datetime eq_refl trend_example "Work Orders"
             (snd (hd ("", mkFrame [] []) trend_example)) (mkDatetime 2024 3 1 0)).
  - reflexivity.
  - simpl. constructor; [simpl; intros [H|[]]; discriminate H | constructor; [simpl; tauto | constructor]].
  - simpl. left. reflexivity.
Defined.

(* ------------------------------------------------------------------ *)
(** ** Tickets: the rows [_prep_common] keeps *)

Lemma normalize_priority_cell_values (v : cell) :
  In (normalize_priority_cell v) [None; Some "High"; Some "Medium"; Some "Low"].
Proof.
  unfold normalize_priority_cell. destruct (_clean_text_cell v); [|simpl; tauto].
  cbv zeta. destruct (Py.contains "high" _); [simpl; tauto|].
  destruct (Py.contains "medium" _); [simpl; tauto|].
  destruct (Py.contains "low" _); simpl; tauto.
Qed.

Lemma normalize_status_cell_values (v : cell) :
  In (normalize_status_cell v) [None; Some "Closed"; Some "In Progress"; Some "Open"; Some "Other"].
Proof.
  unfold normalize_status_cell. destruct (_clean_text_cell v); [|simpl; tauto].
  cbv zeta. destruct (Py.contains "closed" _); [simpl; tauto|].
  destruct (Py.contains "progress" _); [simpl; tauto|].
  destruct (Py.contains "open" _); simpl; tauto.
Qed.

(** Cleaning a normalised status again leaves it unchanged. *)
Lemma clean_of_opt_status (v : cell) :
  _clean_text_cell (of_opt (normalize_status_cell v)) = normalize_status_cell v.
Proof.
  pose proof (normalize_status_cell_values v) as H. simpl in H.
  destruct H as [H|[H|[H|[H|[H|[]]]]]]; rewrite <- H; reflexivity.
Qed.

Lemma normalize_priority_VNone : normalize_priority_cell VNone = None.
Proof. reflexivity. Qed.

Lemma clean_text_VNone : _clean_text_cell VNone = None.
Proof. reflexivity. Qed.

Lemma prep_row_get (status_col : string) (cols : list string) (r : list cell) (c : string) :
  List.length r = List.length cols -> status_col <> "Priority" ->
  get_cell (Tickets.prep_cols status_col cols) (Tickets.prep_row status_col cols r) c =
  Tickets.prep_expected status_col cols r c.
Proof.
  intros Hr Hne. unfold Tickets.prep_cols, Tickets.prep_row, Tickets.prep_expected. cbv zeta.
  assert (Hr1 : List.length (set_row cols "Priority"
                  (of_opt (normalize_priority_cell (get_cell cols r "Priority"))) r)
                = List.length (set_cols cols "Priority")) by (apply length_set_row; exact Hr).
  set (r1 := set_row cols "Priority" _ r) in *.
  assert (Hs1 : get_cell (set_cols cols "Priority") r1 status_col = get_cell cols r status_col)
    by (apply get_set_row_other; assumption).
  rewrite Hs1.
  set (vs := of_opt (normalize_status_cell (get_cell cols r status_col))).
  assert (Hr2 : List.length (set_row (set_cols cols "Priority") status_col vs r1)
                = List.length (set_cols (set_cols cols "Priority") status_col))
    by (apply length_set_row; exact Hr1).
  set (r2 := set_row (set_cols cols "Priority") status_col vs r1) in *.
  set (cols2 := set_cols (set_cols cols "Priority") status_col) in *.
  assert (Hat : get_cell cols2 r2 "Assigned To" =
                if String.eqb "Assigned To" status_col then vs
                else get_cell cols r "Assigned To").
  { destruct (String.eqb "Assigned To" status_col) eqn:E.
    - apply String.eqb_eq in E. rewrite E. apply get_set_row_same. exact Hr1.
    - apply String.eqb_neq in E. unfold r2, cols2.
      rewrite get_set_row_other by assumption.
      unfold r1. rewrite get_set_row_other by (auto || discriminate). reflexivity. }
  destruct (String.eqb c "Assigned To") eqn:Ec.
  - apply String.eqb_eq in Ec. subst c.
    rewrite get_set_row_same by exact Hr2. rewrite Hat.
    destruct (String.eqb "Assigned To" status_col) eqn:E.
    + apply String.eqb_eq in E. subst status_col. unfold vs.
      unfold normalize_assigned_to_cell. rewrite clean_of_opt_status. reflexivity.
    + apply String.eqb_neq in E.
      destruct (String.eqb "Assigned To" status_col) eqn:E';
        [apply String.eqb_eq in E'; contradiction|]. reflexivity.
  - apply String.eqb_neq in Ec. rewrite get_set_row_other by assumption.
    destruct (String.eqb c status_col) eqn:Es.
    + apply String.eqb_eq in Es. subst c.
      unfold r2, cols2. rewrite get_set_row_same by exact Hr1.
      destruct (String.eqb status_col "Priority") eqn:Ep;
        [apply String.eqb_eq in Ep; contradiction|]. reflexivity.
    + apply String.eqb_neq in Es. unfold r2, cols2. rewrite get_set_row_other by assumption.
      destruct (String.eqb c "Priority") eqn:Ep.
      * apply String.eqb_eq in Ep. subst c. unfold r1. apply get_set_row_same. exact Hr.
      * apply String.eqb_neq in Ep. unfold r1. apply get_set_row_other; assumption.
Qed.

Lemma filter_map_ext {A B} (p : B -> bool) (F G : A -> B) (q : A -> bool) (l : list A) :
  (forall x, F x = G x) -> (forall x, In x l -> p (G x) = q x) ->
  filter p (map F l) = map G (filter q l).
Proof.
  intros HF Hp. induction l as [|x l IH]; simpl; [reflexivity|].
  rewrite HF, (Hp x (or_introl eq_refl)), (IH (fun y Hy => Hp y (or_intror Hy))).
  destruct (q x); reflexivity.
Qed.

(** [_prep_common] as a map over the rows it keeps. *)
Lemma prep_common_eq (df : frame) (status_col : string) :
  well_formed df -> In status_col (columns df) -> status_col <> "Priority" ->
  columns (_prep_common df status_col) = Tickets.prep_cols status_col (columns df) /\
  rows (_prep_common df status_col) =
  map (Tickets.prep_row status_col (columns df))
      (filter (Tickets.prep_keep status_col (columns df)) (rows df)).
Proof.
  intros Hwf Hsc Hne.
  assert (Hsc' : has_col status_col (columns df) = true) by (apply has_col_spec; exact Hsc).
  unfold _prep_common. rewrite Hsc'. cbv zeta. simpl negb. cbv iota.
  set (cols := columns df).
  assert (Hcore : forall g1 g3,
    (forall r, g1 r = of_opt (normalize_priority_cell (get_cell cols r "Priority"))) ->
    (forall r, g3 r = of_opt (normalize_assigned_to_cell
                         (get_cell (set_cols (set_cols cols "Priority") status_col) r "Assigned To"))) ->
    let d1 := set_col df "Priority" g1 in
    let d2 := set_col d1 status_col
                (fun r => of_opt (normalize_status_cell (get_cell (columns d1) r status_col))) in
    columns (dropna_subset (set_col d2 "Assigned To" g3) ["Priority"; status_col]) =
      Tickets.prep_cols status_col cols /\
    rows (dropna_subset (set_col d2 "Assigned To" g3) ["Priority"; status_col]) =
      map (Tickets.prep_row status_col cols) (filter (Tickets.prep_keep status_col cols) (rows df))).
  { intros g1 g3 H1 H3. cbv zeta. unfold dropna_subset. rewrite !set_col_eq.
    cbn [columns rows]. fold cols. split; [reflexivity|].
    rewrite !map_map.
    apply (filter_map_ext _ _ (Tickets.prep_row status_col cols)).
    - intros x. unfold Tickets.prep_row. cbv zeta. rewrite H1, H3. reflexivity.
    - intros x Hx. unfold well_formed in Hwf. rewrite Forall_forall in Hwf.
      pose proof (Hwf x Hx) as Hl. fold cols in Hl.
      simpl forallb.
      change (set_cols (set_cols (set_cols cols "Priority") status_col) "Assigned To")
        with (Tickets.prep_cols status_col cols).
      rewrite !prep_row_get by assumption.
      unfold Tickets.prep_expected. simpl String.eqb.
      rewrite (proj2 (String.eqb_neq _ _) Hne), String.eqb_refl.
      unfold Tickets.prep_keep.
      destruct (normalize_priority_cell _), (normalize_status_cell _); reflexivity. }
  destruct (has_col "Priority" cols) eqn:Hp;
  match goal with
  | |- context [has_col "Assigned To" ?cs] => destruct (has_col "Assigned To" cs) eqn:Ha
  end; apply Hcore; intros r; rewrite ?set_col_eq in *; cbn [columns] in *;
  try reflexivity;
  first [ rewrite (get_cell_absent _ _ _ Hp); reflexivity
        | rewrite (get_cell_absent _ _ _ Ha); reflexivity ].
Qed.

Lemma clean_text_some (v : cell) (s : string) :
  _clean_text_cell v = Some s -> Py.strip s = s /\ ~ In s [""; "nan"; "None"].
Proof.
  unfold _clean_text_cell. destruct (Py.str_in _ _) eqn:E; [discriminate|].
  intros [= <-]. split; [apply strip_idem|].
  intros H. apply str_in_spec in H. congruence.
Qed.

(** [_prep_common], row by row (tickets_page.py, lines 201-220). When the
    frame has its status column (other than "Priority"), the rows kept are,
    in order, those whose priority and status both normalise; in each kept
    row, Priority, the status column and "Assigned To" hold their
    normalised values and every other column is unchanged. *)
Theorem prep_common_rows (df : frame) (status_col : string) :
  well_formed df -> In status_col (columns df) -> status_col <> "Priority" ->
  Forall2 (fun r r' => forall c,
             get_cell (columns (_prep_common df status_col)) r' c =
             Tickets.prep_expected status_col (columns df) r c)
          (filter (Tickets.prep_keep status_col (columns df)) (rows df))
          (rows (_prep_common df status_col)).
Proof.
  intros Hwf Hsc Hne. destruct (prep_common_eq df status_col Hwf Hsc Hne) as [Hc Hr].
  rewrite Hc, Hr.
  assert (Hall : forall r, In r (filter (Tickets.prep_keep status_col (columns df)) (rows df)) ->
                           List.length r = List.length (columns df)).
  { intros r Hin. apply filter_In in Hin as [Hin _].
    unfold well_formed in Hwf. rewrite Forall_forall in Hwf. exact (Hwf r Hin). }
  clear Hc Hr. revert Hall. induction (filter _ (rows df)) as [|r l IH]; intros Hall; simpl; constructor.
  - intros c. exact (prep_row_get status_col (columns df) r c (Hall r (in_eq r l)) Hne).
  - apply IH. intros r' Hr'. apply Hall. right. exact Hr'.
Qed.

Lemma prep_common_row_values (df : frame) (status_col : string) (r : list cell) :
  well_formed df -> In status_col (columns df) -> status_col <> "Priority" ->
  In r (rows (_prep_common df status_col)) ->
  let get := get_cell (columns (_prep_common df status_col)) r in
  In (get "Priority") [VStr "High"; VStr "Medium"; VStr "Low"] /\
  In (get status_col) [VStr "Closed"; VStr "In Progress"; VStr "Open"; VStr "Other"] /\
  (get "Assigned To" = VNone \/
   exists s, get "Assigned To" = VStr s /\ Py.strip s = s /\ ~ In s [""; "nan"; "None"]).
Proof.
  intros Hwf Hsc Hne Hin. cbv zeta.
  destruct (prep_common_eq df status_col Hwf Hsc Hne) as [Hc Hr].
  rewrite Hc. rewrite Hr in Hin.
  apply in_map_iff in Hin as (r0 & <- & Hin0).
  apply filter_In in Hin0 as [Hin0 Hk].
  assert (Hl : List.length r0 = List.length (columns df))
    by (unfold well_formed in Hwf; rewrite Forall_forall in Hwf; exact (Hwf r0 Hin0)).
  rewrite !prep_row_get by assumption.
  unfold Tickets.prep_keep in Hk. unfold Tickets.prep_expected.
  rewrite (String.eqb_refl "Priority"), (proj2 (String.eqb_neq _ _) Hne), String.eqb_refl.
  assert (E1 : String.eqb "Assigned To" "Priority" = false) by reflexivity. rewrite E1.
  destruct (normalize_priority_cell (get_cell (columns df) r0 "Priority")) as [p|] eqn:Ep;
    [|discriminate].
  destruct (normalize_status_cell (get_cell (columns df) r0 status_col)) as [s|] eqn:Es;
    [|discriminate].
  pose proof (normalize_priority_cell_values (get_cell (columns df) r0 "Priority")) as Hpv.
  pose proof (normalize_status_cell_values (get_cell (columns df) r0 status_col)) as Hsv.
  rewrite Ep in Hpv. rewrite Es in Hsv. simpl in Hpv, Hsv.
  split; [|split].
  - simpl. destruct Hpv as [H|[H|[H|[H|[]]]]]; inversion H; subst; tauto.
  - simpl. destruct Hsv as [H|[H|[H|[H|[H|[]]]]]]; inversion H; subst; tauto.
  - destruct (String.eqb "Assigned To" status_col) eqn:Ea.
    + right. exists s. split; [reflexivity|].
      destruct Hsv as [H|[H|[H|[H|[H|[]]]]]]; inversion H; subst;
        (split; [reflexivity | simpl; intuition discriminate]).
    + unfold normalize_assigned_to_cell.
      destruct (_clean_text_cell (get_cell (columns df) r0 "Assigned To")) as [a|] eqn:Eat.
      * right. exists a. split; [reflexivity|]. exact (clean_text_some _ _ Eat).
      * left. reflexivity.
Qed.

(** Values after [_prep_common] (tickets_page.py, lines 155-220). When the
    frame has its status column (other than "Priority"), every row kept has
    a Priority among "High", "Medium" and "Low", a status among "Closed",
    "In Progress", "Open" and "Other", and an "Assigned To" that is missing
    or a stripped text other than "", "nan" and "None". *)
Theorem prep_common_values (df : frame) (status_col : string) :
  well_formed df -> In status_col (columns df) -> status_col <> "Priority" ->
  forall r, In r (rows (_prep_common df status_col)) ->
  let get := get_cell (columns (_prep_common df status_col)) r in
  In (get "Priority") [VStr "High"; VStr "Medium"; VStr "Low"] /\
  In (get status_col) [VStr "Closed"; VStr "In Progress"; VStr "Open"; VStr "Other"] /\
  (get "Assigned To" = VNone \/
   exists s, get "Assigned To" = VStr s /\ Py.strip s = s /\ ~ In s [""; "nan"; "None"]).
Proof. intros Hwf Hsc Hne r Hr. exact (prep_common_row_values df status_col r Hwf Hsc Hne Hr). Qed.

(* ------------------------------------------------------------------ *)
(** ** Tickets: what the charts, the table and the assignee tabs receive *)

Lemma bump_keys {K} (eqb : K -> K -> bool) (x k : K) (acc : list (K * nat)) :
  In k (map fst (bump eqb x acc)) -> k = x \/ In k (map fst acc).
Proof.
  induction acc as [|[k' n] acc IH]; simpl.
  - intros [H|[]]. left. symmetry. exact H.
  - destruct (eqb k' x); simpl; [tauto|].
    intros [H|H]; [tauto|]. apply IH in H. tauto.
Qed.

Lemma group_count_keys {K} (eqb : K -> K -> bool) (keys : list K) (k : K) (n : nat) :
  In (k, n) (group_count eqb keys) -> In k keys.
Proof.
  unfold group_count. intros H.
  assert (Hin : In k (map fst (fold_left (fun acc k => bump eqb k acc) keys [])))
    by (apply in_map_iff; exists (k, n); auto).
  clear H. revert Hin.
  assert (Hg : forall acc, In k (map fst (fold_left (fun acc k => bump eqb k acc) keys acc)) ->
                           In k keys \/ In k (map fst acc)).
  { induction keys as [|x keys IH]; simpl; intros acc H; [tauto|].
    apply IH in H as [H|H]; [tauto|]. apply bump_keys in H.
    destruct H as [H|H]; [left; left; symmetry; exact H | right; exact H]. }
  intros H. apply Hg in H as [H|[]]. exact H.
Qed.

Lemma groupby_size_keys (df : frame) (by_ : list string) (k : list cell) (n : nat) :
  In (k, n) (groupby_size df by_) ->
  exists r, In r (rows df) /\ k = map (get_cell (columns df) r) by_.
Proof.
  unfold groupby_size. intros H. apply group_count_keys in H.
  apply filter_In in H as [H _]. apply in_map_iff in H as (r & <- & Hr).
  exists r. split; [exact Hr | reflexivity].
Qed.

(** A subset returned by either filter is made of rows of [_prep_common]
    and keeps its columns. *)
Lemma filter_result_rows (df : frame) (status_col : string) (keep : cell -> bool) (d : frame) :
  mask_by_col (_prep_common df status_col) status_col keep = inr d ->
  columns d = columns (_prep_common df status_col) /\
  (forall r, In r (rows d) -> In r (rows (_prep_common df status_col)) /\
                              keep (get_cell (columns d) r status_col) = true) /\
  has_col status_col (columns df) = true.
Proof.
  unfold mask_by_col. destruct (has_col status_col _) eqn:Hc; [|discriminate].
  intros [= <-]. cbn [columns rows]. split; [reflexivity|]. split.
  - intros r Hr. apply filter_In in Hr. exact Hr.
  - destruct (has_col status_col (columns df)) eqn:E; [reflexivity|].
    unfold _prep_common in Hc. rewrite E in Hc. simpl in Hc. rewrite E in Hc. discriminate.
Qed.

(** Open and Closed tabs (tickets_page.py, lines 249-293). For a sheet
    whose status column is present (and is not "Priority"), every bar of
    the open chart has a [ColorKey] listed in its [color_map], and every
    slice of the closed pie is a priority listed in [PRIORITY_COLORS]:
    no segment is drawn with a default colour. *)
Theorem chart_keys_have_colors (df : frame) (status_col : string) :
  well_formed df -> In status_col (columns df) -> status_col <> "Priority" ->
  (forall d g, filter_not_closed df status_col = inr d -> open_stacked_chart d status_col = Some g ->
     forall k n, In (k, n) g ->
       exists key, Tickets.color_key k = Some key /\ In key (map fst Tickets.open_color_map)) /\
  (forall d g, filter_closed df status_col = inr d -> Tickets.closed_pie_chart d = Some g ->
     forall k n, In (k, n) g ->
       exists p, k = [VStr p] /\ In p (map fst Tickets.PRIORITY_COLORS)).
Proof.
  intros Hwf Hsc Hne. split.
  - intros d g Hf Hg k n Hk.
    apply filter_result_rows in Hf as (Hcols & Hrows & _).
    assert (Hg' : g = groupby_size d ["Priority"; status_col])
      by (unfold open_stacked_chart in Hg; destruct (rows d); congruence).
    subst g.
    apply groupby_size_keys in Hk as (r & Hr & ->).
    apply Hrows in Hr as [Hr Hopen].
    destruct (prep_common_row_values df status_col r Hwf Hsc Hne Hr) as (Hp & Hs & _).
    rewrite Hcols in Hopen |- *.
    simpl map. simpl in Hp, Hs.
    destruct Hp as [Hp|[Hp|[Hp|[]]]]; rewrite <- Hp;
    destruct Hs as [Hs|[Hs|[Hs|[Hs|[]]]]]; rewrite <- Hs in Hopen |- *;
      try discriminate Hopen;
      (eexists; split; [reflexivity | apply str_in_spec; reflexivity]).
  - intros d g Hf Hg k n Hk.
    apply filter_result_rows in Hf as (Hcols & Hrows & _).
    assert (Hg' : g = groupby_size d ["Priority"])
      by (unfold Tickets.closed_pie_chart in Hg; destruct (rows d); congruence).
    subst g.
    apply groupby_size_keys in Hk as (r & Hr & ->).
    apply Hrows in Hr as [Hr _].
    destruct (prep_common_row_values df status_col r Hwf Hsc Hne Hr) as (Hp & _ & _).
    rewrite Hcols. simpl map. simpl in Hp.
    destruct Hp as [Hp|[Hp|[Hp|[]]]]; rewrite <- Hp;
      (eexists; split; [reflexivity | apply str_in_spec; reflexivity]).
Qed.

(** Tables (Open) tab (tickets_page.py, lines 233-244 and 389-399). For a
    sheet whose status column is present (and is not "Priority"), every
    row of the not-closed table is coloured: all its cells get the light
    colour of its priority. *)
Theorem open_table_rows_colored (df : frame) (status_col : string) (d : frame) :
  well_formed df -> In status_col (columns df) -> status_col <> "Priority" ->
  filter_not_closed df status_col = inr d ->
  Forall (fun st => exists p c,
            Tickets.lookup_str p Tickets.PRIORITY_COLORS_LIGHT = Some c /\
            st = repeat ("background-color: " ++ c ++ "; color:black") (List.length (columns d)))
         (Tickets.style_by_priority d).
Proof.
  intros Hwf Hsc Hne Hf.
  apply filter_result_rows in Hf as (Hcols & Hrows & _).
  apply Forall_forall. intros st Hst.
  unfold Tickets.style_by_priority in Hst. apply in_map_iff in Hst as (r & <- & Hr).
  apply Hrows in Hr as [Hr _].
  destruct (prep_common_row_values df status_col r Hwf Hsc Hne Hr) as (Hp & _ & _).
  unfold Tickets.row_style. rewrite Hcols. simpl in Hp.
  destruct Hp as [Hp|[Hp|[Hp|[]]]]; rewrite <- Hp.
  - exists "High", "#f28b82". split; reflexivity.
  - exists "Medium", "#ffe082". split; reflexivity.
  - exists "Low", "#a5d6a7". split; reflexivity.
Qed.

(** A subset returned by either filter always has the "Assigned To" and
    "Priority" columns: [_prep_common] creates them when they are absent. *)
Lemma filter_result_cols (df : frame) (status_col : string) (keep : cell -> bool) (d : frame) :
  mask_by_col (_prep_common df status_col) status_col keep = inr d ->
  In "Assigned To" (columns d) /\ In "Priority" (columns d).
Proof.
  intros Hf. apply filter_result_rows in Hf as (Hcols & _ & Hsc). rewrite Hcols.
  unfold _prep_common. rewrite Hsc. cbv zeta. simpl negb. cbv iota.
  assert (Hcore : forall g1 g2 g3,
    In "Assigned To" (columns (dropna_subset
      (set_col (set_col (set_col df "Priority" g1) status_col g2) "Assigned To" g3)
      ["Priority"; status_col])) /\
    In "Priority" (columns (dropna_subset
      (set_col (set_col (set_col df "Priority" g1) status_col g2) "Assigned To" g3)
      ["Priority"; status_col]))).
  { intros g1 g2 g3. unfold dropna_subset. rewrite !set_col_eq. cbn [columns].
    split; [apply In_set_cols | apply set_cols_incl, set_cols_incl, In_set_cols]. }
  destruct (has_col "Priority" (columns df));
  match goal with
  | |- context [has_col "Assigned To" ?cs] => destruct (has_col "Assigned To" cs)
  end; apply Hcore.
Qed.

Lemma open_assignee_part_all (d : frame) :
  In "Assigned To" (columns d) ->
  open_assignee_part d = rows (select_cols d ["Assigned To"; "Priority"]).
Proof.
  intros H. apply has_col_spec in H. unfold open_assignee_part. simpl rows.
  destruct (rows d); [reflexivity|]. rewrite H. reflexivity.
Qed.

(** Assignees tabs (tickets_page.py, lines 407-449). When the subset of
    every selected source is computed, the frame handed to the chart is the
    concatenation of their "Assigned To" and "Priority" columns: the check
    [not df.empty and "Assigned To" in df.columns] never drops a subset, so
    every ticket of every selected source is there once. *)
Theorem assignee_sources_rows (open_tab : bool) (data : string -> frame)
    (sources : list string) (ds : list frame) :
  let flt := if open_tab then filter_not_closed else filter_closed in
  Forall2 (fun name d => exists status_col,
             Tickets.sheet_status_col name = Some status_col /\ flt (data name) status_col = inr d)
          sources ds ->
  Tickets.combined_sources flt data sources =
    inr (List.concat (map (fun d => rows (select_cols d ["Assigned To"; "Priority"])) ds)) /\
  List.length (List.concat (map (fun d => rows (select_cols d ["Assigned To"; "Priority"])) ds)) =
    fold_right (fun d n => List.length (rows d) + n) 0 ds.
Proof.
  cbv zeta. intros H. split.
  - induction H as [|name d sources ds (sc & Hsc & Hd) _ IH]; [reflexivity|].
    simpl. rewrite Hsc, Hd, IH.
    assert (Hat : In "Assigned To" (columns d)).
    { destruct open_tab; apply (filter_result_cols (data name) sc _ d Hd). }
    rewrite (open_assignee_part_all d Hat). reflexivity.
  - clear H. induction ds as [|d ds IH]; [reflexivity|].
    cbn [List.concat map fold_right]. rewrite length_app, IH.
    cbn [rows select_cols]. rewrite length_map. reflexivity.
Qed.

(* ------------------------------------------------------------------ *)
(** ** Banks page: display, styling, filters, pies *)

(** Matrix (banks_peridics_page.py, lines 369-371, with [cell_style] and
    [normalize_status_cell], lines 197-266). A displayed cell is [None]
    exactly for a blank cell, otherwise its stripped, non-blank text; and
    the display does not change how a cell is classified, so the matrix
    colours agree with the Done/Pending counts of the pies, which are
    computed on the cells before display. *)
Theorem matrix_display_keeps_status (v : cell) :
  (Banks.show_cell v = VNone <-> _is_blank v = true) /\
  (forall s, Banks.show_cell v = VStr s -> Py.strip s = s /\ _is_blank (VStr s) = false) /\
  Banks.normalize_status_cell (Banks.show_cell v) = Banks.normalize_status_cell v /\
  Banks.cell_style (Banks.show_cell v) false false = Banks.cell_style v false false.
Proof.
  assert (Hmain : (Banks.show_cell v = VNone <-> _is_blank v = true) /\
                  (forall s, Banks.show_cell v = VStr s -> Py.strip s = s /\ _is_blank (VStr s) = false) /\
                  Banks.normalize_status_cell (Banks.show_cell v) = Banks.normalize_status_cell v).
  { unfold Banks.show_cell.
    destruct (_is_blank v) eqn:Hb.
    - split; [tauto|]. split; [discriminate|].
      unfold Banks.normalize_status_cell. rewrite Hb. reflexivity.
    - assert (Hb' : _is_blank (VStr (Py.strip (cell_str v))) = false).
      { destruct v as [| |t|t]; try discriminate Hb; revert Hb; unfold _is_blank;
          simpl cell_str; rewrite strip_idem; exact (fun H => H). }
      split; [split; discriminate|]. split.
      + intros s [= <-]. split; [apply strip_idem | exact Hb'].
      + unfold Banks.normalize_status_cell. rewrite Hb, Hb'. simpl cell_str.
        rewrite strip_idem. reflexivity. }
  destruct Hmain as (H1 & H2 & H3). split; [exact H1|]. split; [exact H2|].
  split; [exact H3|]. unfold Banks.cell_style. rewrite H3. reflexivity.
Qed.

Lemma cell_eqb_spec (a b : cell) : cell_eqb a b = true <-> a = b.
Proof.
  destruct a, b; simpl; split; intros H; try discriminate H; try reflexivity;
    try (apply String.eqb_eq in H; subst; reflexivity);
    try (injection H as <-; apply String.eqb_refl).
Qed.

Lemma existsb_filter_neq (v w : cell) (l : list cell) :
  cell_eqb v w = false ->
  existsb (cell_eqb v) (filter (fun x => negb (cell_eqb w x)) l) = existsb (cell_eqb v) l.
Proof.
  intros Hvw. induction l as [|x l IH]; simpl; [reflexivity|].
  destruct (cell_eqb w x) eqn:Ewx; simpl; rewrite IH; [|reflexivity].
  apply cell_eqb_spec in Ewx. subst x. rewrite Hvw. reflexivity.
Qed.

Lemma existsb_unique_cells (v : cell) (l : list cell) :
  existsb (cell_eqb v) (Banks.unique_cells l) = existsb (cell_eqb v) l.
Proof.
  induction l as [|w l IH]; simpl; [reflexivity|].
  destruct (cell_eqb v w) eqn:E; simpl; [reflexivity|].
  rewrite existsb_filter_neq by exact E. exact IH.
Qed.

(** [x.isin(df[c].dropna().unique())] holds for a cell of column [c]
    exactly when it is not missing. *)
Lemma isin_column_values (df : frame) (c : string) (r : list cell) :
  In r (rows df) ->
  Banks.isin (get_cell (columns df) r c) (Banks.column_values df c) =
  negb (is_na (get_cell (columns df) r c)).
Proof.
  intros Hr. unfold Banks.isin, Banks.column_values. rewrite existsb_unique_cells.
  set (v := get_cell (columns df) r c).
  destruct (is_na v) eqn:Hna; simpl.
  - apply not_true_is_false. intros H. apply existsb_exists in H as (w & Hw & E).
    apply filter_In in Hw as [_ Hw]. apply cell_eqb_spec in E. subst w.
    rewrite Hna in Hw. discriminate.
  - apply existsb_exists. exists v. split; [|apply cell_eqb_spec; reflexivity].
    apply filter_In. split; [|rewrite Hna; reflexivity].
    unfold Banks.column_cells. apply in_map_iff. exists r. split; [reflexivity | exact Hr].
Qed.

(** Bank and address filters (banks_peridics_page.py, lines 324-337). A
    row is kept exactly when its bank is selected (any present bank when
    nothing is selected) and its address is selected (any present address
    when nothing is selected): a row with a missing bank or address is
    never shown, even without any filter. *)
Theorem filter_bank_addr_rows (df : frame) (bank_col addr_col : string)
    (bank_sel addr_sel : list cell) :
  rows (Banks.filter_bank_addr df bank_col addr_col bank_sel addr_sel) =
  filter (fun r =>
            match bank_sel with
            | [] => negb (is_na (get_cell (columns df) r bank_col))
            | _ => Banks.isin (get_cell (columns df) r bank_col) bank_sel
            end &&
            match addr_sel with
            | [] => negb (is_na (get_cell (columns df) r addr_col))
            | _ => Banks.isin (get_cell (columns df) r addr_col) addr_sel
            end)
         (rows df).
Proof.
  unfold Banks.filter_bank_addr. cbn [rows]. apply filter_ext_in. intros r Hr.
  destruct bank_sel, addr_sel; rewrite ?isin_column_values by exact Hr; reflexivity.
Qed.

(** [to_text_series] (lines 187-188) against [_is_blank] (lines 125-131):
    it agrees with the tickets page's [_clean_text]; what it turns into
    [None] is blank, and what it keeps is stripped and not empty; but some
    blank cells survive it (["none"], ["NaN"], ...), with a different
    spelling of the null words. *)
Theorem to_text_series_vs_blank :
  (forall v, Banks.to_text_cell v = of_opt (_clean_text_cell v)) /\
  (forall v, Banks.to_text_cell v = VNone -> _is_blank v = true) /\
  (forall v s, Banks.to_text_cell v = VStr s -> Py.strip s = s /\ s <> "") /\
  (exists v, _is_blank v = true /\ Banks.to_text_cell v <> VNone).
Proof.
  split; [|split; [|split]].
  - intros v. unfold Banks.to_text_cell, _clean_text_cell.
    destruct (Py.str_in _ _); reflexivity.
  - intros v. destruct v as [| |t|t]; try reflexivity;
      unfold Banks.to_text_cell, _is_blank; simpl cell_str;
      destruct (Py.str_in (Py.strip t) _) eqn:E; try discriminate;
      intros _; apply str_in_spec in E; simpl in E;
      destruct E as [E|[E|[E|[]]]]; rewrite <- E; reflexivity.
  - intros v s. unfold Banks.to_text_cell.
    destruct (Py.str_in _ _) eqn:E; [discriminate|]. intros [= <-].
    split; [apply strip_idem|]. intros H. rewrite H in E. discriminate.
  - exists (VStr "none"). split; [reflexivity | discriminate].
Qed.

Lemma blocks_concat {A} (m : nat) (l : list A) :
  List.length l <= 6 * m ->
  List.concat (map (fun k => firstn 6 (skipn (6 * k) l)) (seq 0 m)) = l.
Proof.
  revert l. induction m as [|m IH]; intros l Hl.
  - destruct l; [reflexivity | simpl in Hl; lia].
  - cbn [seq map List.concat]. rewrite <- seq_shift, map_map.
    rewrite Nat.mul_0_r. cbn [skipn].
    rewrite (map_ext (fun x => firstn 6 (skipn (6 * S x) l))
                     (fun x => firstn 6 (skipn (6 * x) (skipn 6 l)))).
    + rewrite IH; [apply firstn_skipn|]. rewrite length_skipn. lia.
    + intros x. rewrite skipn_skipn. f_equal. f_equal. lia.
Qed.

Lemma blocks_count (n : nat) : n <= 6 * ((n + 5) / 6) /\ 6 * ((n + 5) / 6) <= n + 5.
Proof.
  pose proof (Nat.div_mod (n + 5) 6 ltac:(lia)) as H.
  pose proof (Nat.mod_upper_bound (n + 5) 6 ltac:(lia)) as Hm. lia.
Qed.

(** Pie blocks (banks_peridics_page.py, lines 344-347). The task columns
    are all the columns but the bank and address ones, in order; the
    blocks of the loop, put back together, give exactly these columns, and
    each block has between 1 and 6 of them (one pie per Streamlit column). *)
Theorem task_blocks_partition (df : frame) (bank_col addr_col : string) :
  let tc := Banks.task_cols df bank_col addr_col in
  List.concat (Banks.task_blocks tc) = tc /\
  Forall (fun blk => 0 < List.length blk <= 6) (Banks.task_blocks tc) /\
  (forall c, In c tc <-> In c (columns df) /\ c <> bank_col /\ c <> addr_col).
Proof.
  cbv zeta. set (tc := Banks.task_cols df bank_col addr_col).
  destruct (blocks_count (List.length tc)) as [H1 H2].
  split; [|split].
  - apply blocks_concat. exact H1.
  - unfold Banks.task_blocks. apply Forall_forall. intros blk Hb.
    apply in_map_iff in Hb as (k & <- & Hk). apply in_seq in Hk.
    rewrite length_firstn, length_skipn. lia.
  - intros c. unfold tc, Banks.task_cols. rewrite filter_In.
    rewrite andb_true_iff, !negb_true_iff, !String.eqb_neq. tauto.
Qed.

Lemma filter_disjoint_length {A} (f g : A -> bool) (l : list A) :
  (forall x, f x = true -> g x = false) ->
  List.length (filter f l) + List.length (filter g l) <= List.length l.
Proof.
  intros H. induction l as [|x l IH]; simpl; [lia|].
  destruct (f x) eqn:Ef; [rewrite (H x Ef)|destruct (g x)]; simpl; lia.
Qed.

Lemma filter_length_zero {A} (f : A -> bool) (l : list A) :
  List.length (filter f l) = 0 <-> Forall (fun x => f x = false) l.
Proof.
  induction l as [|x l IH]; simpl; [split; [constructor | reflexivity]|].
  destruct (f x) eqn:E; simpl.
  - split; [discriminate | intros H; inversion H; congruence].
  - rewrite IH. split; [constructor; assumption | intros H; inversion H; assumption].
Qed.

(** Pies (lines 349-359 with [make_done_pending_pie], lines 214-232). The
    Done and Pending counts of a task column never exceed the number of
    filtered rows, and the pie is replaced by the "n/a" caption exactly
    when no cell of the column is Done or Pending. *)
Theorem pie_counts_spec (df : frame) (c : string) :
  let '(done, pending) := Banks.pie_counts df c in
  done + pending <= List.length (rows df) /\
  (Banks.make_done_pending_pie done pending = None <->
   Forall (fun r => ~ In (Banks.normalize_status_cell (get_cell (columns df) r c))
                         [Some "Done"; Some "Pending"]) (rows df)).
Proof.
  unfold Banks.pie_counts, Banks.column_cells. rewrite map_map.
  set (fd := fun o : option string => match o with Some n => String.eqb n "Done" | None => false end).
  set (fp := fun o : option string => match o with Some n => String.eqb n "Pending" | None => false end).
  split.
  - etransitivity; [apply filter_disjoint_length|].
    + intros [n|]; unfold fd, fp; [|discriminate].
      intros E. apply String.eqb_eq in E. subst. reflexivity.
    + rewrite length_map. reflexivity.
  - unfold Banks.make_done_pending_pie.
    assert (Hz : forall a b, a + b = 0 <-> a = 0 /\ b = 0) by lia.
    destruct (_ + _ =? 0) eqn:E.
    + apply Nat.eqb_eq, Hz in E as [E1 E2].
      apply filter_length_zero in E1, E2. rewrite Forall_map in E1, E2.
      split; [intros _|reflexivity].
      rewrite Forall_forall in E1, E2 |- *. intros r Hr [H|[H|[]]].
      * specialize (E1 r Hr). unfold fd in E1. rewrite <- H in E1. discriminate.
      * specialize (E2 r Hr). unfold fp in E2. rewrite <- H in E2. discriminate.
    + split; [discriminate|]. intros H. exfalso.
      apply Nat.eqb_neq in E. apply E. apply Hz. split; apply filter_length_zero;
        rewrite Forall_map; rewrite Forall_forall in H |- *; intros r Hr;
        specialize (H r Hr); unfold fd, fp;
        destruct (Banks.normalize_status_cell _) as [n|]; try reflexivity;
        apply not_true_is_false; intros En; apply String.eqb_eq in En; subst;
        apply H; simpl; tauto.
Qed.

(** Pie titles (lines 355-357), over code points: a title is at most 22
    characters long, a title of at most 22 is kept as it is, and the first
    21 characters are always kept. *)
Theorem pie_title_spec {A} (title : list A) (ellipsis : A) :
  List.length (Banks.pie_title title ellipsis) <= 22 /\
  (List.length title <= 22 -> Banks.pie_title title ellipsis = title) /\
  firstn 21 (Banks.pie_title title ellipsis) = firstn 21 title.
Proof.
  unfold Banks.pie_title. destruct (22 <? List.length title) eqn:E.
  - apply Nat.ltb_lt in E. split; [|split].
    + rewrite length_app, length_firstn. cbn [List.length]. lia.
    + intros H. lia.
    + rewrite firstn_app, length_firstn.
      replace (21 - Nat.min 21 (List.length title)) with 0 by lia.
      rewrite firstn_firstn. simpl. rewrite app_nil_r. reflexivity.
  - apply Nat.ltb_ge in E. split; [exact E|]. split; reflexivity.
Qed.

(* ------------------------------------------------------------------ *)
(** ** Graph helpers and silent sign-in *)

Lemma first_named_objs (n : string) (l : list Graph.json) :
  forallb Graph.is_obj l = true -> Graph.first_named n l = inr (find (Graph.has_name n) l).
Proof.
  induction l as [|d l IH]; simpl; [reflexivity|].
  destruct d; try discriminate. simpl. intros Hl.
  unfold Graph.name_matches, Graph.dict_get, Graph.has_name.
  destruct (Graph.lookup_field "name" fields) as [j|].
  - destruct j; try (apply IH; exact Hl). destruct (String.eqb s n); [reflexivity|]. apply IH. exact Hl.
  - apply IH. exact Hl.
Qed.

(** [resolve_drive_id], drive choice. When both requests succeed, the site
    has an "id" and the drives answer holds a "value" list of objects: the
    result is the "id" of the first drive named [SP_DRIVE_NAME], or of the
    first drive when none has that name, and [IndexError] when the site has
    no drive at all. *)
Theorem resolve_drive_id_choice (http : Graph.request -> Graph.response)
    (h p SP_DRIVE_NAME : string) (site : Graph.json) (site_id : Graph.json)
    (dj : Graph.json) (drives : list Graph.json) :
  h <> "" -> p <> "" ->
  Graph.graph_get (http (Graph.SiteRequest h p)) = inr site ->
  Graph.get_item site "id" = inr site_id ->
  Graph.graph_get (http (Graph.DrivesRequest site_id)) = inr dj ->
  Graph.get_item dj "value" = inr (Graph.JList drives) ->
  forallb Graph.is_obj drives = true ->
  Graph.resolve_drive_id http (Some h) (Some p) SP_DRIVE_NAME =
  match drives with
  | [] => inl Graph.IndexError
  | d0 :: _ =>
      match find (Graph.has_name SP_DRIVE_NAME) drives with
      | Some d => Graph.get_item d "id"
      | None => Graph.get_item d0 "id"
      end
  end.
Proof.
  intros Hh Hp Hs Hid Hd Hv Hobj. unfold Graph.resolve_drive_id.
  unfold Graph.env_missing. rewrite (proj2 (String.eqb_neq _ _) Hh), (proj2 (String.eqb_neq _ _) Hp).
  simpl orb. cbv iota. rewrite Hs, Hid, Hd, Hv. unfold Graph.pick_drive.
  destruct drives as [|d0 t]; [reflexivity|].
  rewrite (first_named_objs SP_DRIVE_NAME (d0 :: t) Hobj).
  destruct (find _ _); reflexivity.
Qed.

(** app.py's connection status and the pages' silent sign-in agree: with
    the same token cache and environment, app.py finds a token (and shows
    "Connected") exactly when a page gets the same token, writing the cache
    file in the same cases; when app.py finds none, the page raises
    [RuntimeError]; when TENANT_ID or CLIENT_ID is missing, app.py stops and
    the page raises. *)
Theorem silent_token_agrees (m : Auth.msal_view) :
  (Auth.env_ok m = true ->
   (forall t w, Auth.app_acquire_token_silent m = Some (Some t, w) <->
                Auth.get_token_silent_only m = (inr t, w)) /\
   (Auth.app_acquire_token_silent m = Some (None, false) <->
    exists msg, Auth.get_token_silent_only m = (inl (Graph.RuntimeError msg), false))) /\
  (Auth.env_ok m = false ->
   Auth.app_acquire_token_silent m = None /\
   Auth.get_token_silent_only m =
     (inl (Graph.RuntimeError "Missing TENANT_ID / CLIENT_ID in environment."), false)).
Proof.
  unfold Auth.app_acquire_token_silent, Auth.get_token_silent_only.
  split; intros He; rewrite He; simpl negb; cbv iota; [|split; reflexivity].
  destruct (Auth.accounts m) as [|a t].
  - split.
    + intros tk w. split; discriminate.
    + split; [intros _; eexists; reflexivity | reflexivity].
  - destruct (Auth.token_of _) as [tk|].
    + split.
      * intros tk' w. split; intros H; injection H as <- <-; reflexivity.
      * split; [discriminate | intros [msg H]; discriminate H].
    + split.
      * intros tk w. split; discriminate.
      * split; [intros _; eexists; reflexivity | reflexivity].
Qed.

(* ------------------------------------------------------------------ *)
(** ** Instances of the properties on small inputs *)

Definition tickets_example : frame :=
  mkFrame ["Priority"; "Status"; "Assigned To"; "Id"]
    [[VStr " high "; VStr "open"; VStr " Ann "; VStr "1"];
     [VStr "urgent"; VStr "Closed"; VNone; VStr "2"];
     [VStr "Low"; VStr "in progress"; VStr "nan"; VStr "3"];
     [VStr "Medium"; VStr "closed"; VStr "Bob"; VStr "4"]].

Lemma prep_common_rows_witness :
  Forall2 (fun r r' => forall c,
             get_cell (columns (_prep_common tickets_example "Status")) r' c =
             Tickets.prep_expected "Status" (columns tickets_example) r c)
          (filter (Tickets.prep_keep "Status" (columns tickets_example)) (rows tickets_example))
          (rows (_prep_common tickets_example "Status")).
Proof.
  apply prep_common_rows; [repeat constructor | simpl; tauto | discriminate].
Defined.

Lemma prep_common_values_witness :
  let get := get_cell (columns (_prep_common tickets_example "Status"))
                      [VStr "Low"; VStr "In Progress"; VNone; VStr "3"] in
  In (get "Priority") [VStr "High"; VStr "Medium"; VStr "Low"] /\
  In (get "Status") [VStr "Closed"; VStr "In Progress"; VStr "Open"; VStr "Other"] /\
  (get "Assigned To" = VNone \/
   exists s, get "Assigned To" = VStr s /\ Py.strip s = s /\ ~ In s [""; "nan"; "None"]).
Proof.
  apply prep_common_values; [repeat constructor | simpl; tauto | discriminate |].
  vm_compute. right. left. reflexivity.
Defined.

Lemma chart_keys_have_colors_witness :
  (forall d g, filter_not_closed tickets_example "Status" = inr d ->
     open_stacked_chart d "Status" = Some g ->
     forall k n, In (k, n) g ->
       exists key, Tickets.color_key k = Some key /\ In key (map fst Tickets.open_color_map)) /\
  (forall d g, filter_closed tickets_example "Status" = inr d -> Tickets.closed_pie_chart d = Some g ->
     forall k n, In (k, n) g ->
       exists p, k = [VStr p] /\ In p (map fst Tickets.PRIORITY_COLORS)).
Proof.
  apply chart_keys_have_colors; [repeat constructor | simpl; tauto | discriminate].
Defined.

Definition open_tickets_example : frame :=
  mkFrame ["Priority"; "Status"; "Assigned To"; "Id"]
    [[VStr "High"; VStr "Open"; VStr "Ann"; VStr "1"];
     [VStr "Low"; VStr "In Progress"; VNone; VStr "3"]].

Lemma open_table_rows_colored_witness :
  filter_not_closed tickets_example "Status" = inr open_tickets_example /\
  Forall (fun st => exists p c,
            Tickets.lookup_str p Tickets.PRIORITY_COLORS_LIGHT = Some c /\
            st = repeat ("background-color: " ++ c ++ "; color:black")
                        (List.length (columns open_tickets_example)))
         (Tickets.style_by_priority open_tickets_example).
Proof.
  split; [vm_compute; reflexivity |].
  apply (open_table_rows_colored tickets_example "Status");
    [repeat constructor | simpl; tauto | discriminate | vm_compute; reflexivity].
Defined.

Definition assignee_data (name : string) : frame :=
  if String.eqb name "Request" then tickets_example
  else mkFrame ["Status"; "Priority"] [[VStr "Open"; VStr "High"]].

Lemma assignee_sources_rows_witness :
  let ds := [mkFrame ["Priority"; "Status"; "Assigned To"; "Id"]
               [[VStr "High"; VStr "Open"; VStr "Ann"; VStr "1"];
                [VStr "Low"; VStr "In Progress"; VNone; VStr "3"]];
             mkFrame ["Status"; "Priority"; "Assigned To"] [[VStr "Open"; VStr "High"; VNone]]] in
  Tickets.combined_sources filter_not_closed assignee_data ["Request"; "Complaints"] =
    inr (List.concat (map (fun d => rows (select_cols d ["Assigned To"; "Priority"])) ds)) /\
  List.length (List.concat (map (fun d => rows (select_cols d ["Assigned To"; "Priority"])) ds)) =
    fold_right (fun d n => List.length (rows d) + n) 0 ds.
Proof.
  apply (assignee_sources_rows true).
  repeat constructor; eexists; split; reflexivity.
Defined.

Definition drives_http (req : Graph.request) : Graph.response :=
  match req with
  | Graph.SiteRequest _ _ =>
      Graph.mkResponse 200 "" (Some (Graph.JObj [("id", Graph.JStr "site-1")]))
  | Graph.DrivesRequest _ =>
      Graph.mkResponse 200 ""
        (Some (Graph.JObj [("value", Graph.JList
           [Graph.JObj [("name", Graph.JStr "Archive"); ("id", Graph.JStr "d-1")];
            Graph.JObj [("name", Graph.JStr "Documents"); ("id", Graph.JStr "d-2")]])]))
  end.

Lemma resolve_drive_id_choice_witness :
  Graph.resolve_drive_id drives_http (Some "contoso.sharepoint.com") (Some "/sites/ops") "Documents" =
  Graph.get_item (Graph.JObj [("name", Graph.JStr "Documents"); ("id", Graph.JStr "d-2")]) "id".
Proof.
  apply (resolve_drive_id_choice drives_http "contoso.sharepoint.com" "/sites/ops" "Documents"
           (Graph.JObj [("id", Graph.JStr "site-1")]) (Graph.JStr "site-1")
           (Graph.JObj [("value", Graph.JList
              [Graph.JObj [("name", Graph.JStr "Archive"); ("id", Graph.JStr "d-1")];
               Graph.JObj [("name", Graph.JStr "Documents"); ("id", Graph.JStr "d-2")]])])
           [Graph.JObj [("name", Graph.JStr "Archive"); ("id", Graph.JStr "d-1")];
            Graph.JObj [("name", Graph.JStr "Documents"); ("id", Graph.JStr "d-2")]]);
    try discriminate; reflexivity.
Defined.
